(** * AI Model Advisor: model selection and classifier routing

    A shallow embedding of [ModelSelector] (lib/recommendation/ModelSelector.js)
    and of the classifier wiring of the main page (routes/+page.svelte),
    with the properties the specification states about them.

    Conventions of the embedding.
    - A JavaScript number that the catalog stores (sizeMB, accuracy) or a
      caller passes (the accuracy threshold) is an exact rational [Q]: every
      finite double is one, and [<=], [>=] and the sign of a difference agree
      with the rationals on them.  The quotient [threshold / 100] is taken
      exactly; statements about the sign of the quotient are made for the
      thresholds of [Domain.quotientNotZero], where rounding keeps it.
    - The lookup [targetMatches[deploymentTarget]] is taken on the
      literal's own keys; statements that range over targets are made for
      those of [Domain.plainTarget].
    - An optional field is an [option]; [None] is JavaScript's [undefined].
    - A JavaScript object used as a dictionary is a [gmap string _].
    - Array lengths and the counters derived from them live in [Z]. *)

From Stdlib Require Import QArith Lqa Sorting.Sorted Sorting.Permutation Lia.
From stdpp Require Import gmap strings list fin_maps.

Local Open Scope Z_scope.

(** ** Small JavaScript idioms *)

Definition length_of {A} (l : list A) : Z := Z.of_nat (length l).

(** [x ?? d] and, for values that are never falsy when present, [x || d]. *)
Definition orElse {A} (x : option A) (d : A) : A :=
  match x with Some v => v | None => d end.

(** [arr.includes(x)] on an array of strings. *)
Definition includes (arr : list string) (x : string) : bool :=
  existsb (String.eqb x) arr.

(** [arr.some(p)]. *)
Definition some {A} (p : A -> bool) (arr : list A) : bool := existsb p arr.

(** [x - y] on numbers that may be [undefined]: [None] is NaN. *)
Definition jsSub (x y : option nat) : option Q :=
  match x, y with
  | Some p, Some q => Some (inject_Z (Z.of_nat p - Z.of_nat q))
  | _, _ => None
  end.

(** [x || y] on numbers: NaN and 0 are falsy. *)
Definition jsOr (x : option Q) (y : Q) : Q :=
  match x with
  | Some d => if Qeq_bool d 0 then y else d
  | None => y
  end.

Section Sort.
Context {A : Type} (compareFn : A -> A -> Q).

(** [Array.prototype.sort(compareFn)].  ECMAScript requires the sort to be
    stable and, for a consistent comparator, fixes the result: the stable
    arrangement in which [compareFn a b <= 0] for [a] before [b].  Stable
    insertion computes that arrangement; [a] stays in front of [b] exactly
    when the comparator does not return a positive number.  (For an
    inconsistent comparator the language leaves the order to the engine;
    the comparators used here are consistent on lists that carry a priority
    on every model or on none.) *)
Fixpoint insert_sorted (x : A) (l : list A) : list A :=
  match l with
  | [] => [x]
  | y :: l' =>
      if Qle_bool (compareFn x y) 0 then x :: y :: l'
      else y :: insert_sorted x l'
  end.

Fixpoint sort (l : list A) : list A :=
  match l with
  | [] => []
  | x :: l' => insert_sorted x (sort l')
  end.

(** The comparator lets [a] stay in front of [b]. *)
Definition notAfter (a b : A) : Prop := (compareFn a b <= 0)%Q.
End Sort.

Module ModelSelector.

(** ** Data model *)

(** A catalog record, possibly tagged by the selector.  The tagging fields
    ([tier], [tierPriority], [category], [subcategory]) are absent from the
    catalog and added by object spread. *)
Record Model := mkModel {
  id : string;
  sizeMB : Q;
  accuracy : option Q;
  deploymentOptions : option (list string);
  tier : option string;
  tierPriority : option nat;
  category : option string;
  subcategory : option string
}.

(** [{ filtered, total, hidden }] *)
Record FilterResult := mkFilterResult {
  filtered : list Model;
  total : Z;
  hidden : Z
}.

(** One tier of the grouped result: [{ models, hidden }]. *)
Record TierGroup := mkTierGroup {
  models : list Model;
  tierHidden : Z
}.

(** The grouped result: the tier-keyed properties and the two totals. *)
Record Grouped := mkGrouped {
  tiers : gmap string TierGroup;
  totalHidden : Z;
  totalShown : Z
}.

(** [this.modelsData.models]: category -> subcategory -> tier -> models. *)
Abbreviation Catalog := (gmap string (gmap string (gmap string (list Model)))).

(** Modelled from the spec: the constant [TIERS] of lib/data/constants.js,
    which is imported by the selector and is not among the sources.  The
    specification orders the tiers lightweight < standard < advanced <
    xlarge. *)
Definition TIERS : list string :=
  ["lightweight"; "standard"; "advanced"; "xlarge"]%string.

(** ** Operations *)

(** [this.modelsData.models[category]?.[subcategory]], on the catalog's own
    keys. *)
Definition taskDataOf (modelsData : Catalog) (category subcategory : string)
  : option (gmap string (list Model)) :=
  match modelsData !! category with
  | Some subcats => subcats !! subcategory
  | None => None
  end.

(** [{ ...model, tier, tierPriority: index, category, subcategory }] *)
Definition tagWithPriority (tier : string) (index : nat)
    (category subcategory : string) (model : Model) : Model :=
  {| id := id model; sizeMB := sizeMB model; accuracy := accuracy model;
     deploymentOptions := deploymentOptions model;
     tier := Some tier; tierPriority := Some index;
     category := Some category; subcategory := Some subcategory |}.

(** [{ ...model, tier, category, subcategory }] *)
Definition tag (tier : string) (category subcategory : string)
    (model : Model) : Model :=
  {| id := id model; sizeMB := sizeMB model; accuracy := accuracy model;
     deploymentOptions := deploymentOptions model;
     tier := Some tier; tierPriority := tierPriority model;
     category := Some category; subcategory := Some subcategory |}.

Definition getTaskModels (modelsData : Catalog) (category subcategory : string)
  : list Model :=
  match taskDataOf modelsData category subcategory with
  | None => []
  | Some taskData =>
      concat (imap (fun index tier =>
                      map (tagWithPriority tier index category subcategory)
                          (orElse (taskData !! tier) []))
                   TIERS)
  end.

(** [a.tierPriority - b.tierPriority || a.sizeMB - b.sizeMB]: the size
    difference is used when the priorities are equal or one is missing. *)
Definition compareModels (a b : Model) : Q :=
  jsOr (jsSub (tierPriority a) (tierPriority b)) (sizeMB a - sizeMB b)%Q.

(** [models.sort(...)] sorts the array in place and returns it; the
    embedding returns the sorted list. *)
Definition rankBySize (models : list Model) : list Model :=
  sort compareModels models.

(** [threshold / 100] is the exact quotient; the code's quotient is rounded
    to a double, and is zero for a threshold so small that the quotient
    underflows.  [Domain.quotientNotZero] names the thresholds on which the
    two quotients have the same sign. *)
Definition filterByAccuracy (models : list Model) (threshold : Q)
  : FilterResult :=
  if Qeq_bool threshold 0 then
    {| filtered := models; total := length_of models; hidden := 0 |}
  else
    let thresholdDecimal := (threshold / 100)%Q in
    let filtered :=
      List.filter (fun model =>
                     let accuracy := orElse (accuracy model) 0%Q in
                     Qle_bool thresholdDecimal accuracy)
                  models in
    {| filtered := filtered;
       total := length_of models;
       hidden := length_of models - length_of filtered |}.

(** The literal [targetMatches], looked up by its own keys.  A target that
    names a member inherited from [Object.prototype] is outside the
    embedding: there the lookup finds the inherited member and
    [allowed.includes] throws.  [Domain.plainTarget] names the targets on
    which the embedding follows the code. *)
Definition targetMatches (deploymentTarget : string) : option (list string) :=
  if String.eqb deploymentTarget "browser" then Some ["browser"]%string
  else if String.eqb deploymentTarget "edge" then
    Some ["browser"; "edge"; "mobile"]%string
  else if String.eqb deploymentTarget "cloud" then
    Some ["cloud"; "server"; "edge"; "browser"; "mobile"]%string
  else None.

(** [!deploymentTarget]: [null] and the empty string are falsy. *)
Definition noTarget (deploymentTarget : option string) : bool :=
  match deploymentTarget with
  | None => true
  | Some d => String.eqb d ""
  end.

(** The guard [if (!deploymentTarget)] is written out by cases below: [null]
    first, then the empty string. *)
Definition filterByDeployment (models : list Model)
    (deploymentTarget : option string) : FilterResult :=
  match deploymentTarget with
  | None => {| filtered := models; total := length_of models; hidden := 0 |}
  | Some target =>
      if String.eqb target "" then
        {| filtered := models; total := length_of models; hidden := 0 |}
      else
        let allowed := orElse (targetMatches target) [target] in
        let filtered :=
          List.filter (fun model =>
                         some (fun opt => includes allowed opt)
                              (orElse (deploymentOptions model) []))
                      models in
        {| filtered := filtered;
           total := length_of models;
           hidden := length_of models - length_of filtered |}
  end.

(** The object returned when the task has no catalog entry. *)
Definition emptyGrouped : Grouped :=
  {| tiers :=
       <["xlarge"%string := {| models := []; tierHidden := 0 |}]>
       (<["advanced"%string := {| models := []; tierHidden := 0 |}]>
       (<["standard"%string := {| models := []; tierHidden := 0 |}]>
       (<["lightweight"%string := {| models := []; tierHidden := 0 |}]> ∅)));
     totalHidden := 0;
     totalShown := 0 |}.

(** The models of one tier as the loop body builds them. *)
Definition tierModelsOf (taskData : gmap string (list Model))
    (category subcategory tier : string) : list Model :=
  map (tag tier category subcategory) (orElse (taskData !! tier) []).

(** The body of [TIERS.forEach(tier => ...)], acting on [result]. *)
Definition groupTier (taskData : gmap string (list Model))
    (category subcategory : string) (accuracyThreshold : Q)
    (deploymentTarget : option string) (result : Grouped) (tier : string)
  : Grouped :=
  let tierModels := tierModelsOf taskData category subcategory tier in
  let accuracyResult := filterByAccuracy tierModels accuracyThreshold in
  let deployResult :=
    filterByDeployment (filtered accuracyResult) deploymentTarget in
  {| tiers :=
       <[tier := {| models := rankBySize (filtered deployResult);
                    tierHidden := hidden accuracyResult + hidden deployResult |}]>
       (tiers result);
     totalHidden :=
       totalHidden result + (hidden accuracyResult + hidden deployResult);
     totalShown := totalShown result + length_of (filtered deployResult) |}.

Definition getTaskModelsGroupedByTier (modelsData : Catalog)
    (category subcategory : string) (accuracyThreshold : Q)
    (deploymentTarget : option string) : Grouped :=
  match taskDataOf modelsData category subcategory with
  | None => emptyGrouped
  | Some taskData =>
      fold_left
        (groupTier taskData category subcategory accuracyThreshold
                   deploymentTarget)
        TIERS
        {| tiers := ∅; totalHidden := 0; totalShown := 0 |}
  end.

(** [arr.slice(0, end)] for an integer [end]: a negative [end] counts from
    the end of the array. *)
Definition slice0 {A} (arr : list A) (end_ : Z) : list A :=
  let len := length_of arr in
  let final := if end_ <? 0 then Z.max (len + end_) 0 else Z.min end_ len in
  take (Z.to_nat final) arr.

Definition selectModels (modelsData : Catalog) (category subcategory : string)
    (maxResults : Z) : list Model :=
  let models := getTaskModels modelsData category subcategory in
  slice0 (rankBySize models) maxResults.

(** The inner [TIERS.forEach] of [getAvailableCategories]: every tier
    present adds the length of its array to [count]. *)
Definition countModels (tiers : gmap string (list Model)) : Z :=
  fold_left
    (fun count tier =>
       match tiers !! tier with
       | Some arr => count + length_of arr
       | None => count
       end)
    TIERS 0.

(** The loop over the subcategories of one category: [subs]. *)
Definition availableSubcategories
    (subcats : gmap string (gmap string (list Model))) : gmap string Z :=
  omap (fun tiers =>
          let count := countModels tiers in
          if 0 <? count then Some count else None)
       subcats.

(** [Object.keys(subs).length > 0] decides whether the category is listed. *)
Definition getAvailableCategories (modelsData : Catalog)
  : gmap string (gmap string Z) :=
  omap (fun subcats =>
          let subs := availableSubcategories subcats in
          if (0 <? size subs)%nat then Some subs else None)
       modelsData.

End ModelSelector.

(** ** The main page: classifier initialisation and routing *)

Module Page.

(** Completion of a call that may throw (or of a promise that may reject). *)
Inductive Completion (A : Type) : Type :=
| Returned (v : A)
| Threw.
Arguments Returned {A} v.
Arguments Threw {A}.

(** [progress.status] as the [onProgress] callback distinguishes it. *)
Inductive Status :=
| Downloading | Loading | Computing | Ready | Error | OtherStatus.

Record Progress := mkProgress {
  status : Status;
  message : string;
  progress : Q
}.

(** An entry of [subcategoryPredictions] or [predictions]. *)
Record Prediction := mkPrediction {
  category : option string;
  subcategory : option string
}.

(** What a classifier's [classify] resolves to, as far as the page reads it. *)
Record ClassifyResult := mkClassifyResult {
  subcategoryPredictions : option (list Prediction);
  predictions : option (list Prediction);
  confidence : option Q
}.

Inductive Classifier := Embedding | Fallback.

(** The component variables the classifier wiring reads and writes, and a
    ghost log [calls] of the [classify] invocations made so far (latest
    first). *)
Record PageState := mkPageState {
  usingFallback : bool;
  classifierReady : bool;
  isModelLoading : bool;
  modelLoadProgress : string;
  downloadPercentage : Q;
  prefillCategory : option string;
  prefillSubcategory : option string;
  prefillConfidence : Q;
  error : option string;
  calls : list (Classifier * string)
}.

(** The declarations at the top of the script. *)
Definition initialState : PageState :=
  {| usingFallback := false; classifierReady := false;
     isModelLoading := false; modelLoadProgress := "";
     downloadPercentage := 0; prefillCategory := None;
     prefillSubcategory := None; prefillConfidence := 0;
     error := None; calls := [] |}.

(** The [onProgress] callback handed to [EmbeddingTaskClassifier]. *)
Definition onProgress (p : Progress) (st : PageState) : PageState :=
  match status p with
  | Downloading | Loading | Computing =>
      {| usingFallback := usingFallback st;
         classifierReady := classifierReady st;
         isModelLoading := true; modelLoadProgress := message p;
         downloadPercentage := progress p;
         prefillCategory := prefillCategory st;
         prefillSubcategory := prefillSubcategory st;
         prefillConfidence := prefillConfidence st;
         error := error st; calls := calls st |}
  | Ready =>
      {| usingFallback := usingFallback st;
         classifierReady := true;
         isModelLoading := false; modelLoadProgress := "";
         downloadPercentage := 100;
         prefillCategory := prefillCategory st;
         prefillSubcategory := prefillSubcategory st;
         prefillConfidence := prefillConfidence st;
         error := error st; calls := calls st |}
  | Error =>
      {| usingFallback := true;
         classifierReady := classifierReady st;
         isModelLoading := false; modelLoadProgress := "";
         downloadPercentage := downloadPercentage st;
         prefillCategory := prefillCategory st;
         prefillSubcategory := prefillSubcategory st;
         prefillConfidence := prefillConfidence st;
         error := error st; calls := calls st |}
  | OtherStatus => st
  end.

Definition setFlags (fallback ready : bool) (st : PageState) : PageState :=
  {| usingFallback := fallback; classifierReady := ready;
     isModelLoading := isModelLoading st;
     modelLoadProgress := modelLoadProgress st;
     downloadPercentage := downloadPercentage st;
     prefillCategory := prefillCategory st;
     prefillSubcategory := prefillSubcategory st;
     prefillConfidence := prefillConfidence st;
     error := error st; calls := calls st |}.

Definition setError (msg : string) (st : PageState) : PageState :=
  {| usingFallback := usingFallback st; classifierReady := classifierReady st;
     isModelLoading := isModelLoading st;
     modelLoadProgress := modelLoadProgress st;
     downloadPercentage := downloadPercentage st;
     prefillCategory := prefillCategory st;
     prefillSubcategory := prefillSubcategory st;
     prefillConfidence := prefillConfidence st;
     error := Some msg; calls := calls st |}.

(** The continuation of [onMount] after [await taskClassifier.initialize]:
    the promise resolves to [{ success }], or rejects and the enclosing
    [catch] records the failure.  (The URL handling that follows goes through
    [handleFormSubmit] and does not touch the classifier variables.) *)
Definition afterInitialize (initResult : Completion bool) (st : PageState)
  : PageState :=
  match initResult with
  | Returned true => setFlags false true st
  | Returned false => setFlags true (classifierReady st) st
  | Threw =>
      setError
        "Failed to initialize the AI model advisor. Please refresh the page."
        st
  end.

(** [arr?.[0]] *)
Definition first (arr : option (list Prediction)) : option Prediction :=
  match arr with
  | Some (p :: _) => Some p
  | _ => None
  end.

(** [result.subcategoryPredictions?.[0] || result.predictions?.[0]] *)
Definition topPrediction (result : ClassifyResult) : option Prediction :=
  match first (subcategoryPredictions result) with
  | Some p => Some p
  | None => first (predictions result)
  end.

(** A string read as a condition, or [s || null]: empty is falsy. *)
Definition truthy (s : option string) : option string :=
  match s with
  | Some v => if String.eqb v "" then None else Some v
  | None => None
  end.

(** The statements of [handleClassify] after the classifier has answered. *)
Definition prefillFrom (result : ClassifyResult) (st : PageState) : PageState :=
  match topPrediction result with
  | Some top =>
      match truthy (category top) with
      | Some c =>
          {| usingFallback := usingFallback st;
             classifierReady := classifierReady st;
             isModelLoading := isModelLoading st;
             modelLoadProgress := modelLoadProgress st;
             downloadPercentage := downloadPercentage st;
             prefillCategory := Some c;
             prefillSubcategory := truthy (subcategory top);
             prefillConfidence := orElse (confidence result) 0%Q;
             error := error st; calls := calls st |}
      | None => st
      end
  | None => st
  end.

(** [!usingFallback && classifierReady] *)
Definition route (st : PageState) : Classifier :=
  if negb (usingFallback st) && classifierReady st then Embedding
  else Fallback.

Definition logCall (c : Classifier) (taskDescription : string)
    (st : PageState) : PageState :=
  {| usingFallback := usingFallback st; classifierReady := classifierReady st;
     isModelLoading := isModelLoading st;
     modelLoadProgress := modelLoadProgress st;
     downloadPercentage := downloadPercentage st;
     prefillCategory := prefillCategory st;
     prefillSubcategory := prefillSubcategory st;
     prefillConfidence := prefillConfidence st;
     error := error st; calls := (c, taskDescription) :: calls st |}.

(** What happens on the page, in the order it happens. *)
Inductive Event :=
| ProgressEvent (p : Progress)
| InitializeEnds (initResult : Completion bool)
| ClassifyEvent (taskDescription : string).

Section Classifiers.
(** [taskClassifier.classify(text, { topK: 5 })] and
    [fallbackClassifier.classify(text)]: both classes live outside the
    sources, so their answers are arbitrary and either may throw. *)
Variable taskClassifier : string -> Completion ClassifyResult.
Variable fallbackClassifier : string -> Completion ClassifyResult.

Definition classifyWith (c : Classifier) (taskDescription : string)
  : Completion ClassifyResult :=
  match c with
  | Embedding => taskClassifier taskDescription
  | Fallback => fallbackClassifier taskDescription
  end.

(** [handleClassify]: the classifier chosen by the flags is called; its
    answer pre-fills the form.  Whatever the [try] block throws is caught,
    and the [catch] clause only warns on the console. *)
Definition handleClassify (st : PageState) (taskDescription : string)
  : Completion PageState :=
  let st1 := logCall (route st) taskDescription st in
  match classifyWith (route st) taskDescription with
  | Returned result => Returned (prefillFrom result st1)
  | Threw => Returned st1
  end.

Definition step (st : PageState) (e : Event) : Completion PageState :=
  match e with
  | ProgressEvent p => Returned (onProgress p st)
  | InitializeEnds initResult => Returned (afterInitialize initResult st)
  | ClassifyEvent taskDescription => handleClassify st taskDescription
  end.

Fixpoint run (st : PageState) (events : list Event) : Completion PageState :=
  match events with
  | [] => Returned st
  | e :: events' =>
      match step st e with
      | Returned st' => run st' events'
      | Threw => Threw
      end
  end.
End Classifiers.

Definition isReadyEvent (e : Event) : bool :=
  match e with
  | ProgressEvent p => match status p with Ready => true | _ => false end
  | InitializeEnds (Returned true) => true
  | _ => false
  end.

Definition isClassifyEvent (e : Event) : bool :=
  match e with ClassifyEvent _ => true | _ => false end.

(** A logged call that went to the fallback classifier. *)
Definition toFallback (c : Classifier * string) : Prop := fst c = Fallback.

(** The number of classification requests among [events]. *)
Definition classifyCount (events : list Event) : nat :=
  length (List.filter isClassifyEvent events).

End Page.

(** ** Fixtures *)

Module Fixture.
Import ModelSelector.

Definition catalogModel (name : string) (size : Q) (acc : option Q)
    (deploy : option (list string)) : Model :=
  {| id := name; sizeMB := size; accuracy := acc;
     deploymentOptions := deploy;
     tier := None; tierPriority := None;
     category := None; subcategory := None |}.

(** The two models of the combined-filter scenario. *)
Definition browserModel : Model :=
  catalogModel "browser-model" 20 (Some 0.77%Q)
               (Some ["browser"; "mobile"]%string).
Definition standardBrowser : Model :=
  catalogModel "standard-browser" 300 (Some 0.88%Q) (Some ["browser"]%string).


(** [mockModelsData] of tests/deployment-filter.test.js. *)
Definition mockModelsData : Catalog :=
  {[ "computer_vision"%string :=
       {[ "image_classification"%string :=
            <["advanced"%string :=
                [catalogModel "advanced-server" 2000 (Some 0.95%Q)
                              (Some ["server"]%string)]]>
            (<["standard"%string :=
                [standardBrowser;
                 catalogModel "standard-cloud" 500 (Some 0.92%Q)
                              (Some ["cloud"]%string)]]>
            {[ "lightweight"%string :=
                [browserModel;
                 catalogModel "edge-model" 50 (Some 0.85%Q)
                              (Some ["edge"; "cloud"]%string);
                 catalogModel "cloud-only" 100 (Some 0.90%Q)
                              (Some ["cloud"; "server"]%string)] ]}) ]} ]}.


(** A record without accuracy and without deployment options. *)
Definition bare : Model := catalogModel "m2" 10 None None.

(** Two records of one tier and one size, told apart by their ids. *)
Definition twinA : Model :=
  tagWithPriority "lightweight" 0 "computer_vision" "image_classification"
                  (catalogModel "twin-a" 50 None None).
Definition twinB : Model :=
  tagWithPriority "lightweight" 0 "computer_vision" "image_classification"
                  (catalogModel "twin-b" 50 None None).

(** A standard-tier record, tagged. *)
Definition taggedStandard : Model :=
  tagWithPriority "standard" 1 "computer_vision" "image_classification"
                  standardBrowser.

(** A record of 800 MB in the standard tier, tagged. *)
Definition midSize : Model :=
  tagWithPriority "standard" 1 "computer_vision" "image_classification"
                  (catalogModel "mid-size" 800 None None).

(** A classifier answer of confidence one half. *)
Definition lowConfidence : Page.ClassifyResult :=
  {| Page.subcategoryPredictions :=
       Some [ {| Page.category := Some "computer_vision"%string;
                 Page.subcategory := Some "image_classification"%string |} ];
     Page.predictions := None;
     Page.confidence := Some 0.5%Q |}.

(** A classifier answer with another label, and no reported confidence. *)
Definition keywordAnswer : Page.ClassifyResult :=
  {| Page.subcategoryPredictions := None;
     Page.predictions :=
       Some [ {| Page.category := Some "natural_language_processing"%string;
                 Page.subcategory := Some "text_classification"%string |} ];
     Page.confidence := None |}.

End Fixture.

(** ** Vocabulary of the specification *)

Module Spec.
Import ModelSelector.

(** [kept] is what remains of [input] when exactly the elements satisfying
    [P] are kept, in their order and with their multiplicity. *)
Definition keepsExactly (P : Model -> Prop) (input kept : list Model) : Prop :=
  exists p : Model -> bool,
    (forall m, p m = true <-> P m) /\ kept = List.filter p input.

(** The spec's reading of the deployment filter: the model's options (none
    when the field is missing) meet the allowed set. *)
Definition intersects (allowed : list string) (m : Model) : Prop :=
  exists opt, In opt (orElse (deploymentOptions m) []) /\ In opt allowed.


Definition deployKeeps (allowed : list string) (m : Model) : bool :=
  some (fun opt => includes allowed opt) (orElse (deploymentOptions m) []).

(** Position of a tier in [TIERS]. *)
Fixpoint indexOf (name : string) (l : list string) : option nat :=
  match l with
  | [] => None
  | x :: l' => if String.eqb name x then Some 0%nat
               else option_map S (indexOf name l')
  end.

Definition tierIndex (name : string) : option nat := indexOf name TIERS.

(** A model tagged with its tier the way [getTaskModels] tags it: the
    priority is the position of the tier. *)
Definition taggedWithTier (m : Model) : Prop :=
  exists name index,
    tier m = Some name /\ tierIndex name = Some index
    /\ tierPriority m = Some index.

(** Tier priority first, sizeMB second. *)
Definition tierThenSize (a b : Model) : Prop :=
  exists p q,
    tierPriority a = Some p /\ tierPriority b = Some q
    /\ ((p < q)%nat \/ (p = q /\ (sizeMB a <= sizeMB b)%Q)).

(** [a] stands at an earlier position than [b]. *)
Definition ranksBefore (l : list Model) (a b : Model) : Prop :=
  exists i j, l !! i = Some a /\ l !! j = Some b /\ (i < j)%nat.

(** Same tier priority and same size as [a]. *)
Definition tiedWith (a m : Model) : bool :=
  bool_decide (tierPriority a = tierPriority m)
  && Qeq_bool (sizeMB a) (sizeMB m).

(** The models the loop body sees for [tier]: none when the task is absent
    from the catalog. *)
Definition tierInput (modelsData : Catalog) (category subcategory : string)
    (tier : string) : list Model :=
  match taskDataOf modelsData category subcategory with
  | Some taskData => tierModelsOf taskData category subcategory tier
  | None => []
  end.




(** The per-tier pipeline in the spec's words: accuracy filter, then
    deployment filter on what is left, then rank. *)
Definition tierPipeline (input : list Model) (accuracyThreshold : Q)
    (deploymentTarget : option string) : TierGroup :=
  let accuracyResult := filterByAccuracy input accuracyThreshold in
  let deployResult :=
    filterByDeployment (filtered accuracyResult) deploymentTarget in
  {| models := rankBySize (filtered deployResult);
     tierHidden := hidden accuracyResult + hidden deployResult |}.

(** The ids of a tier's models, in order. *)
Definition ids (g : option TierGroup) : option (list string) :=
  (fun g => map id (models g)) <$> g.



End Spec.

(** ** Where the embedding follows the code *)

Module Domain.

(** The members an object literal inherits from [Object.prototype].  The
    lookup [targetMatches[deploymentTarget]] finds them although the literal
    does not define them; what it finds is truthy and has no [includes]
    method, so the filter callback throws a TypeError. *)
Definition inheritedMembers : list string :=
  ["constructor"; "hasOwnProperty"; "isPrototypeOf"; "propertyIsEnumerable";
   "toLocaleString"; "toString"; "valueOf"; "__proto__";
   "__defineGetter__"; "__defineSetter__"; "__lookupGetter__";
   "__lookupSetter__"]%string.

(** The target is [null], or a string that names no inherited member: the
    lookup then sees the literal's own keys only. *)
Definition plainTarget (deploymentTarget : option string) : bool :=
  match deploymentTarget with
  | None => true
  | Some target => negb (includes inheritedMembers target)
  end.



End Domain.

(** ** The catalog builder (lib/aggregation/ModelAggregator.js) *)

Module Aggregator.

Definition determineTier (sizeMB : Q) : string :=
  if Qle_bool sizeMB 500 then "lightweight"
  else if Qle_bool sizeMB 4000 then "standard"
  else if Qle_bool sizeMB 20000 then "advanced"
  else "xlarge".

Definition calculateEnvironmentalScore (sizeMB : Q) : Z :=
  if Qle_bool sizeMB 500 then 1
  else if Qle_bool sizeMB 4000 then 2
  else 3.

(** [options.add(x)] on a [Set] kept in insertion order. *)
Definition setAdd (options : list string) (x : string) : list string :=
  if includes options x then options else options ++ [x].

(** [determineDeploymentOptions(sizeMB, rawModel, frameworks)]; the body
    does not read [rawModel].  The result is [[...options]]. *)
Definition determineDeploymentOptions (sizeMB : Q) (frameworks : list string)
  : list string :=
  let options := [] in
  let browserFrameworks := ["ONNX"; "Transformers.js"; "TensorFlow.js"] in
  let hasBrowserRuntime :=
    some (fun f => includes browserFrameworks f) frameworks in
  let options :=
    if hasBrowserRuntime && Qle_bool sizeMB 500
    then setAdd options "browser" else options in
  let options :=
    if hasBrowserRuntime && Qle_bool sizeMB 100
    then setAdd options "mobile" else options in
  let options :=
    if Qle_bool sizeMB 500 then setAdd options "edge" else options in
  let options :=
    if Qle_bool sizeMB 4000
    then setAdd (setAdd options "cloud") "server"
    else setAdd options "server" in
  options.

(** A catalog entry as the merge step reads it: the key, the curated field
    and the remaining fields. *)
Record Entry := mkEntry {
  huggingFaceId : string;
  specialization : option string;
  fields : ModelSelector.Model
}.

(** A string field read as a condition. *)
Definition isSet (s : option string) : bool :=
  match s with
  | Some v => negb (String.eqb v "")
  | None => false
  end.

(** One turn of the loop of [deduplicateModels] on [(seen, result)]. *)
Definition dedupStep (st : gmap string Entry * list Entry) (model : Entry)
  : gmap string Entry * list Entry :=
  let '(seen, result) := st in
  match seen !! huggingFaceId model with
  | Some existing =>
      if isSet (specialization existing) && negb (isSet (specialization model))
      then (seen, result)
      else (seen, result)
  | None => (<[huggingFaceId model := model]> seen, result ++ [model])
  end.

Definition deduplicateModels (models : list Entry) : list Entry :=
  snd (fold_left dedupStep models (∅, [])).

(** [preserveCuratedFields(newModel, existingModels)]: the new model, with
    its [specialization] assigned when the branch is taken. *)
Definition preserveCuratedFields (newModel : Entry)
    (existingModels : list Entry) : Entry :=
  match List.find (fun m => String.eqb (huggingFaceId m)
                                       (huggingFaceId newModel))
                  existingModels with
  | Some existing =>
      if isSet (specialization existing)
         && negb (isSet (specialization newModel))
      then {| huggingFaceId := huggingFaceId newModel;
              specialization := specialization existing;
              fields := fields newModel |}
      else newModel
  | None => newModel
  end.

(** The start of the per-tier merge in [mergeWithExistingData]:
    [deduplicateModels([...existing, ...models.map(preserve)])]. *)
Definition mergeTier (existing models : list Entry) : list Entry :=
  let modelsWithCuratedFields :=
    map (fun m => preserveCuratedFields m existing) models in
  let combined := existing ++ modelsWithCuratedFields in
  deduplicateModels combined.

(** The first entry of every key, in order of first appearance: what
    deduplication is meant to leave. *)
Fixpoint firstOccurrences (l : list Entry) : list Entry :=
  match l with
  | [] => []
  | x :: l' =>
      x :: List.filter
             (fun y => negb (String.eqb (huggingFaceId y) (huggingFaceId x)))
             (firstOccurrences l')
  end.

(** The key of [m] does not occur in [l]. *)
Definition freshIn (l : list Entry) (m : Entry) : bool :=
  negb (existsb (fun y => String.eqb (huggingFaceId y) (huggingFaceId m)) l).

(** [frameworks.some(f => browserFrameworks.includes(f))] *)
Definition hasBrowserRuntime (frameworks : list string) : bool :=
  some (fun f => includes ["ONNX"; "Transformers.js"; "TensorFlow.js"] f)
       frameworks.

End Aggregator.

Module Samples.

(** Three catalog entries, the first and the last under one key. *)
Definition curated : Aggregator.Entry :=
  {| Aggregator.huggingFaceId := "org/model-a";
     Aggregator.specialization := Some "task:tables"%string;
     Aggregator.fields := Fixture.browserModel |}.
Definition other : Aggregator.Entry :=
  {| Aggregator.huggingFaceId := "org/model-b";
     Aggregator.specialization := None;
     Aggregator.fields := Fixture.standardBrowser |}.
Definition refetched : Aggregator.Entry :=
  {| Aggregator.huggingFaceId := "org/model-a";
     Aggregator.specialization := None;
     Aggregator.fields := Fixture.standardBrowser |}.

End Samples.

(** ** Environmental impact
    (lib/environmental/EnvironmentalImpactCalculator.js) *)

Module Impact.
Import ModelSelector.

(** An entry of [SCORE_TIERS]; [maxMB = None] is [Infinity]. *)
Record ScoreTier := mkScoreTier {
  maxMB : option Q;
  score : Z;
  tierName : string;
  label : string
}.

Definition SCORE_TIERS : list ScoreTier :=
  [ {| maxMB := Some 500%Q; score := 1; tierName := "lightweight";
       label := "Low Impact" |};
    {| maxMB := Some 4000%Q; score := 2; tierName := "standard";
       label := "Medium Impact" |};
    {| maxMB := None; score := 3; tierName := "advanced";
       label := "High Impact" |} ].

(** [SCORE_TIERS.find(t => sizeMB <= t.maxMB)]; [None] is [undefined]. *)
Definition getTier (sizeMB : Q) : option ScoreTier :=
  List.find (fun t => match maxMB t with
                      | Some m => Qle_bool sizeMB m
                      | None => true
                      end)
            SCORE_TIERS.

(** [x || 0] on a number. *)
Definition orZero (x : Q) : Q := if Qeq_bool x 0 then 0%Q else x.

Record ImpactResult := mkImpactResult {
  environmentalScore : Z;
  impactSizeMB : Q;
  scoreLabel : string;
  impactTier : string
}.

(** [calculateImpact(model)]; [None] stands for the TypeError raised by
    [tier.score] when [getTier] finds nothing. *)
Definition calculateImpact (model : Model) : option ImpactResult :=
  let sizeMB := orZero (sizeMB model) in
  match getTier sizeMB with
  | Some tier =>
      Some {| environmentalScore := score tier;
              impactSizeMB := sizeMB;
              scoreLabel := label tier;
              impactTier := tierName tier |}
  | None => None
  end.

(** The comparator of [compareModels] on [{ model, impact }] pairs. *)
Definition compareImpact (a b : Model * ImpactResult) : Q :=
  jsOr (Some (inject_Z (environmentalScore (snd a)
                        - environmentalScore (snd b))))
       (orZero (sizeMB (fst a)) - orZero (sizeMB (fst b)))%Q.

(** [models.map(model => ({ model, impact })).sort(...)]; [None] when a
    call of [calculateImpact] throws. *)
Definition compareModels (models : list Model)
  : option (list (Model * ImpactResult)) :=
  match mapM (fun model =>
                match calculateImpact model with
                | Some impact => Some (model, impact)
                | None => None
                end)
             models with
  | Some pairs => Some (sort compareImpact pairs)
  | None => None
  end.

End Impact.

(** ** The task form (components/TaskForm.svelte) and the page's submit
    handler *)

Module Form.
Import ModelSelector.

(** The variables of the form that [handleSubmit] reads. *)
Record FormState := mkFormState {
  selectedCategory : string;
  selectedSubcategory : string;
  selectedDeployment : string;
  taskDescription : string
}.

(** [event.detail] of the form's [submit] event. *)
Record SubmitDetail := mkSubmitDetail {
  category : string;
  subcategory : string;
  deploymentTarget : option string;
  description : option string
}.

(** [s || null] on a string. *)
Definition orNull (s : string) : option string :=
  if String.eqb s "" then None else Some s.

(** [handleSubmit]: what is dispatched, if anything.  [trim] is
    [String.prototype.trim]. *)
Definition handleSubmit (trim : string -> string) (form : FormState)
  : option SubmitDetail :=
  if String.eqb (selectedCategory form) ""
     || String.eqb (selectedSubcategory form) ""
  then None
  else Some {| category := selectedCategory form;
               subcategory := selectedSubcategory form;
               deploymentTarget := orNull (selectedDeployment form);
               description := orNull (trim (taskDescription form)) |}.

(** The variables of the page that [handleFormSubmit] writes. *)
Record Results := mkResults {
  isLoading : bool;
  error : option string;
  recommendations : list Model;
  taskCategory : string;
  taskSubcategory : string;
  showResultsHighlight : bool
}.

Definition quote : string := String (Ascii.ascii_of_nat 34) EmptyString.

(** The two messages shown when nothing is found. *)
Definition noModelsMessage (category subcategory : string)
    (deploymentTarget : option string) : string :=
  match deploymentTarget with
  | Some target =>
      if String.eqb target "" then
        "No models found for " +:+ category +:+ " / " +:+ subcategory +:+ "."
      else
        "No " +:+ target +:+ "-ready models found for this task. Try "
        +:+ quote +:+ "Any environment" +:+ quote +:+ " to see all options."
  | None =>
      "No models found for " +:+ category +:+ " / " +:+ subcategory +:+ "."
  end.

(** [groupedModels.<tier>.models], and [[]] for [xlarge?.models || []]. *)
Definition modelsOf (groupedModels : Grouped) (tier : string) : list Model :=
  match tiers groupedModels !! tier with
  | Some g => models g
  | None => []
  end.

(** [handleFormSubmit] up to the scrolling: the page variables when the
    handler returns.  Each of them is assigned on the way, so the values they
    had before do not matter.  The three tiers read without [?.] are always
    present in the grouped result.  [navigation] is the outcome of the URL
    update that ends the [try] block: [None] when it goes through, the
    error's message when it throws.  The timers that scroll and clear the
    highlight run later and are left out. *)
Definition handleFormSubmit (modelsData : Catalog)
    (navigation : option string) (detail : SubmitDetail) : Results :=
  let groupedModels :=
    getTaskModelsGroupedByTier modelsData (category detail)
      (subcategory detail) 0 (deploymentTarget detail) in
  let filteredRecommendations :=
    modelsOf groupedModels "lightweight" ++ modelsOf groupedModels "standard"
    ++ modelsOf groupedModels "advanced" ++ modelsOf groupedModels "xlarge" in
  let empty := (length_of filteredRecommendations =? 0) in
  {| isLoading := false;
     error :=
       match navigation with
       | Some msg =>
           Some (if String.eqb msg ""
                 then "An error occurred. Please try again." else msg)
       | None =>
           if empty
           then Some (noModelsMessage (category detail) (subcategory detail)
                                      (deploymentTarget detail))
           else None
       end;
     recommendations := if empty then [] else filteredRecommendations;
     taskCategory := category detail;
     taskSubcategory := subcategory detail;
     showResultsHighlight := true |}.

(** The recommendations in the spec's words: tier by tier, the models the
    deployment filter keeps, ranked. *)
Definition recommendedFor (modelsData : Catalog) (detail : SubmitDetail)
  : list Model :=
  concat
    (map (fun tier =>
            rankBySize
              (filtered
                 (filterByDeployment
                    (match taskDataOf modelsData (category detail)
                                      (subcategory detail) with
                     | Some taskData =>
                         tierModelsOf taskData (category detail)
                                      (subcategory detail) tier
                     | None => []
                     end)
                    (deploymentTarget detail))))
         TIERS).

End Form.

(** ** Comparing the two rankings *)

Module Ordering.
Import ModelSelector.

(** A model with its [tierPriority] field left out. *)
Definition withoutPriority (m : Model) : Model :=
  {| id := id m; sizeMB := sizeMB m; accuracy := accuracy m;
     deploymentOptions := deploymentOptions m;
     tier := tier m; tierPriority := None;
     category := category m;
     subcategory := subcategory m |}.

(** The catalog records of the task carry no [tierPriority] of their own. *)
Definition catalogWithoutPriority (modelsData : Catalog)
    (category subcategory : string) : Prop :=
  forall taskData tier arr,
    taskDataOf modelsData category subcategory = Some taskData ->
    taskData !! tier = Some arr ->
    Forall (fun m => tierPriority m = None) arr.

End Ordering.

(** ** Events that change the routing *)

Module Session.
Import Page.

(** An error report, or [initialize] resolving without success: the page
    sets [usingFallback]. *)
Definition turnsToFallback (e : Event) : bool :=
  match e with
  | ProgressEvent p => match status p with Error => true | _ => false end
  | InitializeEnds (Returned false) => true
  | _ => false
  end.

(** A logged call that went to the embedding classifier. *)
Definition toEmbedding (c : Classifier * string) : Prop := fst c = Embedding.

(** The answer has no top prediction with a category. *)
Definition noLabel (result : ClassifyResult) : Prop :=
  match topPrediction result with
  | Some top => truthy (category top) = None
  | None => True
  end.

(** The spec's reading of a routed call: the call is served by [classifier]
    alone, logged under the name [which]; its answer pre-fills the form, and
    its failure leaves the form as it was. *)
Definition classifyBy (which : Classifier)
    (classifier : string -> Completion ClassifyResult)
    (st : PageState) (taskDescription : string) : Completion PageState :=
  let st1 := logCall which taskDescription st in
  match classifier taskDescription with
  | Returned result => Returned (prefillFrom result st1)
  | Threw => Returned st1
  end.

(** The page when every classification call is served by [classifier]
    alone: the other classifier does not occur. *)
Fixpoint runBy (which : Classifier)
    (classifier : string -> Completion ClassifyResult)
    (st : PageState) (events : list Event) : Completion PageState :=
  match events with
  | [] => Returned st
  | e :: events' =>
      let next :=
        match e with
        | ProgressEvent p => Returned (onProgress p st)
        | InitializeEnds initResult => Returned (afterInitialize initResult st)
        | ClassifyEvent taskDescription =>
            classifyBy which classifier st taskDescription
        end in
      match next with
      | Returned st' => runBy which classifier st' events'
      | Threw => Threw
      end
  end.

End Session.

(** * Properties *)

Import ModelSelector Spec Domain.

(** ** Auxiliary facts *)

Lemma includes_In (arr : list string) (x : string) :
  includes arr x = true <-> In x arr.
Proof.
  unfold includes. rewrite existsb_exists. split.
  - intros (y & Hy & Heq). apply String.eqb_eq in Heq. now subst.
  - intros Hx. exists x. split; [assumption | apply String.eqb_refl].
Qed.

Lemma some_exists {A} (p : A -> bool) (arr : list A) :
  some p arr = true <-> exists x, In x arr /\ p x = true.
Proof. apply existsb_exists. Qed.


Lemma keepsExactly_In P input kept :
  keepsExactly P input kept ->
  forall m, In m kept <-> In m input /\ P m.
Proof.
  intros (p & Hp & ->) m. rewrite filter_In, Hp. reflexivity.
Qed.

Lemma deployKeeps_intersects allowed m :
  deployKeeps allowed m = true <-> intersects allowed m.
Proof.
  unfold deployKeeps, intersects. rewrite some_exists.
  split; intros (opt & Hin & H); exists opt; split; auto;
    now apply includes_In.
Qed.

Lemma filterByDeployment_target (models : list Model) (target : string) :
  noTarget (Some target) = false ->
  filterByDeployment models (Some target) =
    let allowed := orElse (targetMatches target) [target] in
    let kept := List.filter (deployKeeps allowed) models in
    {| filtered := kept; total := length_of models;
       hidden := length_of models - length_of kept |}.
Proof.
  simpl. intros Hne. unfold filterByDeployment. rewrite Hne. reflexivity.
Qed.

Lemma filterByDeployment_keeps (models : list Model) (target : string) :
  noTarget (Some target) = false ->
  keepsExactly (intersects (orElse (targetMatches target) [target])) models
               (filtered (filterByDeployment models (Some target))).
Proof.
  intros Hne. rewrite filterByDeployment_target by assumption. simpl.
  eexists. split; [|reflexivity]. intros m. apply deployKeeps_intersects.
Qed.

Lemma keepsExactly_equiv (P P' : Model -> Prop) input kept :
  (forall m, P m <-> P' m) ->
  keepsExactly P input kept -> keepsExactly P' input kept.
Proof.
  intros Heq (p & Hp & Hk). exists p. split; [|exact Hk].
  intros m. rewrite Hp. apply Heq.
Qed.

Lemma intersects_same_elements (a a' : list string) (m : Model) :
  (forall x, In x a <-> In x a') -> intersects a m <-> intersects a' m.
Proof.
  intros Hs. unfold intersects.
  split; intros (opt & H1 & H2); exists opt; split; auto; now apply Hs.
Qed.

Lemma filter_sublist_weaken {A} (p q : A -> bool) (l : list A) :
  (forall x, p x = true -> q x = true) ->
  sublist (List.filter p l) (List.filter q l).
Proof.
  intros Hpq. induction l as [|x l IH]; simpl; [constructor|].
  destruct (p x) eqn:Hp.
  - rewrite (Hpq _ Hp). now constructor.
  - destruct (q x); [now constructor | assumption].
Qed.

(** ** The accuracy filter *)






(** ** The deployment filter *)

(** C3: with target [null] [filterByDeployment] hands back its input and
    hides nothing.  With target browser it keeps exactly the models whose
    deploymentOptions meet {browser}, with edge those meeting {browser, edge,
    mobile}, with cloud those meeting {browser, edge, mobile, cloud, server};
    each time the hidden count is the input length minus the kept length. *)
Theorem filterByDeployment_spec (models : list Model) :
  filterByDeployment models None =
    {| filtered := models; total := length_of models; hidden := 0 |}
  /\ (let r := filterByDeployment models (Some "browser"%string) in
      keepsExactly (intersects ["browser"]%string) models (filtered r)
      /\ hidden r = length_of models - length_of (filtered r))
  /\ (let r := filterByDeployment models (Some "edge"%string) in
      keepsExactly (intersects ["browser"; "edge"; "mobile"]%string)
                   models (filtered r)
      /\ hidden r = length_of models - length_of (filtered r))
  /\ (let r := filterByDeployment models (Some "cloud"%string) in
      keepsExactly
        (intersects ["browser"; "edge"; "mobile"; "cloud"; "server"]%string)
        models (filtered r)
      /\ hidden r = length_of models - length_of (filtered r)).
Proof.
  split; [reflexivity|].
  split; [|split]; cbn zeta.
  - split; [|reflexivity].
    exact (filterByDeployment_keeps models "browser" eq_refl).
  - split; [|reflexivity].
    exact (filterByDeployment_keeps models "edge" eq_refl).
  - split; [|reflexivity].
    eapply keepsExactly_equiv;
      [|exact (filterByDeployment_keeps models "cloud" eq_refl)].
    intros m. apply intersects_same_elements.
    intros x. simpl. tauto.
Qed.

(** C8: on the same input, the models kept for target cloud are a superset
    of those kept for target browser: the list kept for browser is a sub-list
    of the list kept for cloud, so each model kept for browser is kept for
    cloud. *)
Theorem cloud_keeps_superset_of_browser (models : list Model) :
  sublist (filtered (filterByDeployment models (Some "browser"%string)))
          (filtered (filterByDeployment models (Some "cloud"%string)))
  /\ forall m,
       In m (filtered (filterByDeployment models (Some "browser"%string))) ->
       In m (filtered (filterByDeployment models (Some "cloud"%string))).
Proof.
  assert (sublist
            (filtered (filterByDeployment models (Some "browser"%string)))
            (filtered (filterByDeployment models (Some "cloud"%string))))
    as Hsub.
  { rewrite !filterByDeployment_target by reflexivity. simpl.
    apply filter_sublist_weaken. intros m Hb.
    apply deployKeeps_intersects in Hb. apply deployKeeps_intersects.
    destruct Hb as (opt & Hopt & Hallowed). exists opt. split; [exact Hopt|].
    simpl in *. destruct Hallowed as [<-|[]]. tauto. }
  split; [exact Hsub|].
  intros m Hin. apply list_elem_of_In.
  eapply elem_of_sublist; [|exact Hsub]. now apply list_elem_of_In.
Qed.

Lemma cloud_keeps_superset_of_browser_witness :
  In Fixture.standardBrowser
     (filtered (filterByDeployment
                  [Fixture.bare; Fixture.standardBrowser]
                  (Some "cloud"%string))).
Proof.
  apply (proj2 (cloud_keeps_superset_of_browser
                  [Fixture.bare; Fixture.standardBrowser])).
  simpl. left. reflexivity.
Defined.

(** C10, as stated, fails for the empty string: it is a non-null target,
    yet the guard [!deploymentTarget] treats it as no target and the model
    without deploymentOptions is returned with the rest of the input. *)
Lemma empty_target_keeps_missing_options :
  Some ""%string <> None
  /\ deploymentOptions Fixture.bare = None
  /\ In Fixture.bare
        (filtered (filterByDeployment [Fixture.standardBrowser; Fixture.bare]
                                      (Some ""%string))).
Proof.
  split; [discriminate|]. split; [reflexivity|].
  right. left. reflexivity.
Qed.

(** C10, amended: for every target that passes the guard [!deploymentTarget]
    (neither [null] nor the empty string) and that names no member
    inherited from [Object.prototype], a model whose deploymentOptions field
    is missing or empty is excluded: the missing field is read as the empty
    set. *)
Theorem missing_options_excluded (models : list Model)
    (deploymentTarget : option string) (m : Model) :
  noTarget deploymentTarget = false ->
  plainTarget deploymentTarget = true ->
  deploymentOptions m = None \/ deploymentOptions m = Some [] ->
  ~ In m (filtered (filterByDeployment models deploymentTarget)).
Proof.
  intros Hguard _ Hopts Hin.
  destruct deploymentTarget as [target|]; [|discriminate Hguard].
  apply (keepsExactly_In _ _ _ (filterByDeployment_keeps models target Hguard))
    in Hin as [_ (opt & Hopt & _)].
  destruct Hopts as [Hm|Hm]; rewrite Hm in Hopt; exact Hopt.
Qed.

Lemma missing_options_excluded_witness :
  ~ In Fixture.bare
      (filtered (filterByDeployment [Fixture.standardBrowser; Fixture.bare]
                                    (Some "browser"%string)))
  /\ ~ In Fixture.bare
      (filtered (filterByDeployment [Fixture.standardBrowser; Fixture.bare]
                                    (Some "mobile"%string))).
Proof.
  split; apply missing_options_excluded;
    [reflexivity | reflexivity | left; reflexivity
     | reflexivity | reflexivity | left; reflexivity].
Defined.

(** ** Stable insertion sort *)

Section SortFacts.
Context {A : Type} (compareFn : A -> A -> Q).

Lemma insert_sorted_perm (x : A) (l : list A) :
  Permutation (x :: l) (insert_sorted compareFn x l).
Proof.
  induction l as [|y l IH]; simpl; [reflexivity|].
  destruct (Qle_bool (compareFn x y) 0); [reflexivity|].
  rewrite perm_swap. now constructor.
Qed.

Lemma sort_perm (l : list A) : Permutation l (sort compareFn l).
Proof.
  induction l as [|x l IH]; simpl; [constructor|].
  rewrite <- insert_sorted_perm. now constructor.
Qed.

Lemma insert_sorted_head (x : A) (l : list A) :
  HdRel (notAfter compareFn) x l -> insert_sorted compareFn x l = x :: l.
Proof.
  intros [|y l' Hxy]; simpl; [reflexivity|].
  apply Qle_bool_iff in Hxy. now rewrite Hxy.
Qed.

(** A list that is already in order is left as it is. *)
Lemma sort_sorted_id (l : list A) :
  Sorted (notAfter compareFn) l -> sort compareFn l = l.
Proof.
  induction 1 as [|x l Hs IH Hhd]; simpl; [reflexivity|].
  rewrite IH. now apply insert_sorted_head.
Qed.

(** Elements outside a class do not disturb the order inside it. *)
Lemma insert_sorted_filter_out (keep : A -> bool) (x : A) (l : list A) :
  keep x = false ->
  List.filter keep (insert_sorted compareFn x l) = List.filter keep l.
Proof.
  intros Hx. induction l as [|y l IH]; simpl.
  - now rewrite Hx.
  - destruct (Qle_bool (compareFn x y) 0); simpl.
    + now rewrite Hx.
    + now rewrite IH.
Qed.

Lemma insert_sorted_filter_in (keep : A -> bool) (x : A) (l : list A) :
  (forall y, keep y = true -> notAfter compareFn x y) ->
  keep x = true ->
  List.filter keep (insert_sorted compareFn x l) = x :: List.filter keep l.
Proof.
  intros Hcls Hx. induction l as [|y l IH]; simpl.
  - now rewrite Hx.
  - destruct (Qle_bool (compareFn x y) 0) eqn:Hxy; simpl.
    + now rewrite Hx.
    + destruct (keep y) eqn:Hy; [|exact IH].
      apply Hcls, Qle_bool_iff in Hy. congruence.
Qed.

(** Stability: the members of a class of mutually tied elements come out in
    the order they went in. *)
Lemma sort_stable (keep : A -> bool) (l : list A) :
  (forall x y,
      keep x = true -> keep y = true -> notAfter compareFn x y) ->
  List.filter keep (sort compareFn l) = List.filter keep l.
Proof.
  intros Hcls. induction l as [|x l IH]; simpl; [reflexivity|].
  destruct (keep x) eqn:Hx.
  - rewrite insert_sorted_filter_in; auto. now rewrite IH.
  - rewrite insert_sorted_filter_out; auto.
Qed.

Section Total.
(** A comparator whose sign flips with its arguments. *)
Hypothesis compare_flip :
  forall a b, ~ notAfter compareFn a b -> notAfter compareFn b a.

Lemma insert_sorted_Sorted (x : A) (l : list A) :
  Sorted (notAfter compareFn) l ->
  Sorted (notAfter compareFn) (insert_sorted compareFn x l).
Proof.
  induction 1 as [|y l Hs IH Hhd]; simpl.
  - repeat constructor.
  - destruct (Qle_bool (compareFn x y) 0) eqn:Hxy.
    + apply Qle_bool_iff in Hxy. repeat constructor; assumption.
    + assert (notAfter compareFn y x) as Hyx.
      { apply compare_flip. intros H. apply Qle_bool_iff in H.
        congruence. }
      constructor; [exact IH|].
      destruct Hhd as [|z l' Hyz]; simpl.
      * now constructor.
      * destruct (Qle_bool (compareFn x z) 0); now constructor.
Qed.

Lemma sort_Sorted (l : list A) :
  Sorted (notAfter compareFn) (sort compareFn l).
Proof.
  induction l as [|x l IH]; simpl; [constructor|].
  now apply insert_sorted_Sorted.
Qed.

Lemma sort_idempotent (l : list A) :
  sort compareFn (sort compareFn l) = sort compareFn l.
Proof. apply sort_sorted_id, sort_Sorted. Qed.
End Total.
End SortFacts.

(** ** Ranking *)

Lemma Qminus_le_0 (x y : Q) : (x - y <= 0)%Q <-> (x <= y)%Q.
Proof. split; intros H; lra. Qed.

Lemma inject_Z_le_0 (z : Z) : (inject_Z z <= 0)%Q <-> z <= 0.
Proof. rewrite (Zle_Qle z 0). reflexivity. Qed.

Lemma Qeq_bool_inject_Z_0 (z : Z) : Qeq_bool (inject_Z z) 0 = true <-> z = 0.
Proof.
  rewrite Qeq_bool_iff. apply (inject_Z_injective z 0).
Qed.

(** The comparator on two models that both carry a priority. *)
Lemma compareModels_tagged (a b : Model) (p q : nat) :
  tierPriority a = Some p -> tierPriority b = Some q ->
  notAfter compareModels a b <->
  (p < q)%nat \/ (p = q /\ (sizeMB a <= sizeMB b)%Q).
Proof.
  intros Ha Hb. unfold notAfter, compareModels, jsSub, jsOr.
  rewrite Ha, Hb.
  destruct (Qeq_bool (inject_Z (Z.of_nat p - Z.of_nat q)) 0) eqn:E.
  - apply Qeq_bool_inject_Z_0 in E. rewrite Qminus_le_0.
    split; [intros H; right; split; [lia | exact H]|].
    intros [H|[_ H]]; [lia | exact H].
  - rewrite inject_Z_le_0.
    assert (Z.of_nat p - Z.of_nat q <> 0) as Hne.
    { intros H. apply Qeq_bool_inject_Z_0 in H. congruence. }
    split; [intros H; left; lia|].
    intros [H|[H _]]; lia.
Qed.

(** The comparator when a priority is missing: sizeMB alone decides. *)
Lemma compareModels_untagged (a b : Model) :
  tierPriority a = None \/ tierPriority b = None ->
  compareModels a b = (sizeMB a - sizeMB b)%Q.
Proof.
  unfold compareModels, jsSub, jsOr.
  intros [H|H]; rewrite H; [reflexivity|].
  now destruct (tierPriority a).
Qed.

Lemma compareModels_flip (a b : Model) :
  ~ notAfter compareModels a b -> notAfter compareModels b a.
Proof.
  destruct (tierPriority a) as [p|] eqn:Ha, (tierPriority b) as [q|] eqn:Hb.
  - rewrite (compareModels_tagged a b p q), (compareModels_tagged b a q p)
      by assumption.
    intros H.
    destruct (lt_eq_lt_dec p q) as [[Hlt|Heq]|Hgt]; [tauto | | tauto].
    right. split; [congruence|].
    destruct (Qlt_le_dec (sizeMB a) (sizeMB b)) as [Hs|Hs];
      [exfalso; apply H; right; split; [exact Heq | lra] | exact Hs].
  - unfold notAfter.
    rewrite (compareModels_untagged a b), (compareModels_untagged b a) by auto.
    intros H. lra.
  - unfold notAfter.
    rewrite (compareModels_untagged a b), (compareModels_untagged b a) by auto.
    intros H. lra.
  - unfold notAfter.
    rewrite (compareModels_untagged a b), (compareModels_untagged b a) by auto.
    intros H. lra.
Qed.

Lemma tierThenSize_trans : Transitive tierThenSize.
Proof.
  intros a b c (p & q & Ha & Hb & Hab) (q' & r & Hb' & Hc & Hbc).
  assert (q' = q) as -> by congruence.
  exists p, r. repeat split; try assumption.
  destruct Hab as [Hab|[-> Hab]], Hbc as [Hbc|[-> Hbc]];
    try (left; lia); try (now left).
  right. split; [reflexivity | lra].
Qed.

Lemma taggedWithTier_priority (m : Model) :
  taggedWithTier m -> exists p, tierPriority m = Some p.
Proof. intros (name & index & _ & _ & H). eauto. Qed.

Lemma notAfter_tierThenSize (a b : Model) :
  taggedWithTier a -> taggedWithTier b ->
  notAfter compareModels a b -> tierThenSize a b.
Proof.
  intros [p Hp]%taggedWithTier_priority [q Hq]%taggedWithTier_priority H.
  exists p, q. repeat split; try assumption.
  now apply (compareModels_tagged a b p q).
Qed.

Lemma Sorted_tierThenSize (l : list Model) :
  Forall taggedWithTier l ->
  Sorted (notAfter compareModels) l -> StronglySorted tierThenSize l.
Proof.
  intros Htag Hs. apply Sorted_StronglySorted; [exact tierThenSize_trans|].
  induction Hs as [|x l Hs IH Hhd]; [constructor|].
  apply Forall_cons in Htag as [Hx Hl].
  constructor; [now apply IH|].
  destruct Hhd as [|y l' Hxy]; constructor.
  apply Forall_cons in Hl as [Hy _].
  now apply notAfter_tierThenSize.
Qed.

Lemma StronglySorted_lookup (R : Model -> Model -> Prop) (l : list Model) :
  StronglySorted R l ->
  forall i j a b,
    l !! i = Some a -> l !! j = Some b -> (i < j)%nat -> R a b.
Proof.
  induction 1 as [|x l Hs IH Hall]; intros i j a b Hi Hj Hlt.
  - discriminate Hi.
  - destruct j as [|j]; [lia|]. simpl in Hj.
    destruct i as [|i]; simpl in Hi.
    + injection Hi as <-.
      rewrite List.Forall_forall in Hall. apply Hall.
      apply list_elem_of_In. eapply list_elem_of_lookup_2. exact Hj.
    + eapply IH; eauto. lia.
Qed.

Lemma tiedWith_notAfter (a x y : Model) :
  tiedWith a x = true -> tiedWith a y = true -> notAfter compareModels x y.
Proof.
  unfold tiedWith. intros [Hx Sx]%andb_prop [Hy Sy]%andb_prop.
  apply bool_decide_eq_true in Hx, Hy.
  apply Qeq_bool_iff in Sx, Sy.
  destruct (tierPriority x) as [p|] eqn:Ex.
  - apply (compareModels_tagged x y p p); [assumption | congruence |].
    right. split; [reflexivity|]. rewrite <- Sx, <- Sy. apply Qle_refl.
  - unfold notAfter. rewrite compareModels_untagged by auto.
    rewrite <- Sx, <- Sy. lra.
Qed.

Lemma rankBySize_tagged (ms : list Model) :
  Forall taggedWithTier ms -> Forall taggedWithTier (rankBySize ms).
Proof.
  intros H. eapply Permutation_Forall; [|exact H].
  apply sort_perm.
Qed.

Lemma tagWithPriority_tagged (name : string) (index : nat)
    (category subcategory : string) (model : Model) :
  tierIndex name = Some index ->
  taggedWithTier (tagWithPriority name index category subcategory model).
Proof. intros H. exists name, index. simpl. auto. Qed.


(** C9: ranking is idempotent: ranking a ranked list changes nothing. *)
Theorem rankBySize_idempotent (ms : list Model) :
  rankBySize (rankBySize ms) = rankBySize ms.
Proof.
  unfold rankBySize. apply sort_idempotent. exact compareModels_flip.
Qed.

(** C4, as stated, fails on ties: two different models of one tier and one
    size cannot each stand before the other, although each is no larger
    than the other. *)
Lemma rank_iff_fails_on_ties :
  ~ (forall (ms : list Model) (a b : Model),
        Forall taggedWithTier ms -> In a ms -> In b ms -> a <> b ->
        tier a = tier b ->
        (ranksBefore (rankBySize ms) a b <-> (sizeMB a <= sizeMB b)%Q)).
Proof.
  intros H.
  specialize (H [Fixture.twinA; Fixture.twinB] Fixture.twinB Fixture.twinA).
  assert (ranksBefore (rankBySize [Fixture.twinA; Fixture.twinB])
                      Fixture.twinB Fixture.twinA) as (i & j & Hi & Hj & Hlt).
  { apply H.
    - repeat constructor; apply tagWithPriority_tagged; reflexivity.
    - simpl. auto.
    - simpl. auto.
    - discriminate.
    - reflexivity.
    - apply Qle_refl. }
  change (rankBySize [Fixture.twinA; Fixture.twinB])
    with [Fixture.twinA; Fixture.twinB] in Hi, Hj.
  destruct j as [|j]; [lia|].
  destruct j as [|j]; [discriminate Hj|].
  destruct j; discriminate Hj.
Qed.

(** C4, amended: on models tagged with tiers, ranking permutes its input
    and orders it by tier priority ascending, then by sizeMB ascending.
    Whenever A stands before B, either A's tier comes first or the tiers
    agree and A.sizeMB <= B.sizeMB; within a tier a strictly smaller model
    stands before a larger one; a lightweight model stands before a standard
    one whatever the sizes; models tied on tier and size keep the order they
    had in the input; and the comparator reads no field but tierPriority and
    sizeMB. *)
Theorem rankBySize_order (ms : list Model) :
  Forall taggedWithTier ms ->
  Permutation ms (rankBySize ms)
  /\ (forall a b, ranksBefore (rankBySize ms) a b -> tierThenSize a b)
  /\ (forall a b, In a ms -> In b ms -> tier a = tier b ->
        (sizeMB a < sizeMB b)%Q ->
        ranksBefore (rankBySize ms) a b /\ ~ ranksBefore (rankBySize ms) b a)
  /\ (forall a b, In a ms -> In b ms ->
        tier a = Some "lightweight"%string ->
        tier b = Some "standard"%string ->
        ranksBefore (rankBySize ms) a b /\ ~ ranksBefore (rankBySize ms) b a)
  /\ (forall a,
        List.filter (tiedWith a) (rankBySize ms) = List.filter (tiedWith a) ms)
  /\ (forall a a' b b',
        tierPriority a = tierPriority a' -> sizeMB a = sizeMB a' ->
        tierPriority b = tierPriority b' -> sizeMB b = sizeMB b' ->
        compareModels a b = compareModels a' b').
Proof.
  intros Htag.
  assert (Permutation ms (rankBySize ms)) as Hperm by apply sort_perm.
  assert (forall a b, ranksBefore (rankBySize ms) a b -> tierThenSize a b)
    as Hord.
  { intros a b (i & j & Hi & Hj & Hlt).
    eapply StronglySorted_lookup; eauto.
    apply Sorted_tierThenSize; [now apply rankBySize_tagged|].
    apply sort_Sorted. exact compareModels_flip. }
  assert (forall a b, In a ms -> In b ms -> a <> b ->
            ~ ranksBefore (rankBySize ms) b a ->
            ranksBefore (rankBySize ms) a b) as Hone.
  { intros a b Ha Hb Hne Hnot.
    apply (Permutation_in _ Hperm), list_elem_of_In, list_elem_of_lookup
      in Ha as [i Hi].
    apply (Permutation_in _ Hperm), list_elem_of_In, list_elem_of_lookup
      in Hb as [j Hj].
    destruct (lt_eq_lt_dec i j) as [[Hlt|Heq]|Hgt].
    - exists i, j. auto.
    - subst j. congruence.
    - exfalso. apply Hnot. exists j, i. auto. }
  split; [exact Hperm|]. split; [exact Hord|].
  split; [|split; [|split]].
  - intros a b Ha Hb Htier Hsize.
    assert (~ ranksBefore (rankBySize ms) b a) as Hnot.
    { intros (q & p & Hq & Hp & [Hlt|[_ Hle]])%Hord.
      - rewrite List.Forall_forall in Htag.
        destruct (Htag a Ha) as (na & ia & Hna & Hia & Hpa).
        destruct (Htag b Hb) as (nb & ib & Hnb & Hib & Hpb).
        assert (na = nb) as -> by congruence.
        assert (q = p) by congruence. lia.
      - lra. }
    split; [|exact Hnot].
    apply Hone; auto. intros ->. lra.
  - intros a b Ha Hb Hta Htb.
    rewrite List.Forall_forall in Htag.
    destruct (Htag a Ha) as (na & ia & Hna & Hia & Hpa).
    destruct (Htag b Hb) as (nb & ib & Hnb & Hib & Hpb).
    assert (na = "lightweight"%string) as -> by congruence.
    assert (nb = "standard"%string) as -> by congruence.
    injection Hia as <-. injection Hib as <-.
    assert (~ ranksBefore (rankBySize ms) b a) as Hnot.
    { intros (q & p & Hq & Hp & Hcase)%Hord.
      assert (q = 1%nat) as -> by congruence.
      assert (p = 0%nat) as -> by congruence.
      destruct Hcase as [Hlt|[Heq _]]; lia. }
    split; [|exact Hnot].
    apply Hone; auto. intros ->. congruence.
  - intros a. apply sort_stable. apply tiedWith_notAfter.
  - intros a a' b b' Hpa Hsa Hpb Hsb. unfold compareModels.
    now rewrite Hpa, Hsa, Hpb, Hsb.
Qed.

Lemma rankBySize_order_witness :
  Forall taggedWithTier [Fixture.taggedStandard; Fixture.twinA]
  /\ ranksBefore (rankBySize [Fixture.taggedStandard; Fixture.twinA])
                 Fixture.twinA Fixture.taggedStandard.
Proof.
  assert (Forall taggedWithTier [Fixture.taggedStandard; Fixture.twinA])
    as Htag.
  { repeat constructor; eexists _, _; repeat split; reflexivity. }
  split; [exact Htag|].
  destruct (rankBySize_order _ Htag) as (_ & _ & _ & Hcross & _).
  apply Hcross; simpl; auto.
Defined.

(** ** Grouping by tier *)

Lemma filterByAccuracy_hidden (ms : list Model) (threshold : Q) :
  hidden (filterByAccuracy ms threshold) =
    length_of ms - length_of (filtered (filterByAccuracy ms threshold)).
Proof.
  unfold filterByAccuracy.
  destruct (Qeq_bool threshold 0); simpl; lia.
Qed.

Lemma filterByDeployment_hidden (ms : list Model) (target : option string) :
  hidden (filterByDeployment ms target) =
    length_of ms - length_of (filtered (filterByDeployment ms target)).
Proof.
  unfold filterByDeployment.
  destruct target as [d|]; [destruct (String.eqb d "")|]; simpl; lia.
Qed.


Lemma tierPipeline_nil (threshold : Q) (target : option string) :
  tierPipeline [] threshold target = {| models := []; tierHidden := 0 |}.
Proof.
  unfold tierPipeline, filterByAccuracy, filterByDeployment.
  destruct (Qeq_bool threshold 0);
    (destruct target as [d|]; [destruct (String.eqb d "")|]); reflexivity.
Qed.

Lemma tierPipeline_shown (input : list Model) (threshold : Q)
    (target : option string) :
  length_of (models (tierPipeline input threshold target)) =
    length_of
      (filtered (filterByDeployment
                   (filtered (filterByAccuracy input threshold)) target)).
Proof.
  unfold tierPipeline, length_of, rankBySize. simpl.
  f_equal. symmetry. apply Permutation_length, sort_perm.
Qed.

(** The loop, unrolled over the four tiers. *)
Lemma grouped_unfold (modelsData : Catalog) (category subcategory : string)
    (threshold : Q) (target : option string) :
  let g tier :=
    tierPipeline (tierInput modelsData category subcategory tier)
                 threshold target in
  let shown tier :=
    length_of
      (filtered
         (filterByDeployment
            (filtered (filterByAccuracy
                         (tierInput modelsData category subcategory tier)
                         threshold))
            target)) in
  getTaskModelsGroupedByTier modelsData category subcategory threshold target
  = {| tiers :=
         <["xlarge"%string := g "xlarge"%string]>
         (<["advanced"%string := g "advanced"%string]>
         (<["standard"%string := g "standard"%string]>
         (<["lightweight"%string := g "lightweight"%string]> ∅)));
       totalHidden :=
         0 + tierHidden (g "lightweight"%string)
           + tierHidden (g "standard"%string)
           + tierHidden (g "advanced"%string)
           + tierHidden (g "xlarge"%string);
       totalShown :=
         0 + shown "lightweight"%string + shown "standard"%string
           + shown "advanced"%string + shown "xlarge"%string |}.
Proof.
  cbn zeta. unfold getTaskModelsGroupedByTier, tierInput.
  destruct (taskDataOf modelsData category subcategory) as [taskData|].
  - reflexivity.
  - rewrite !tierPipeline_nil.
    unfold filterByAccuracy, filterByDeployment.
    destruct (Qeq_bool threshold 0);
      (destruct target as [d|]; [destruct (String.eqb d "")|]); reflexivity.
Qed.

Lemma grouped_lookup (modelsData : Catalog) (category subcategory : string)
    (threshold : Q) (target : option string) (tier : string) :
  In tier TIERS ->
  tiers (getTaskModelsGroupedByTier modelsData category subcategory
                                    threshold target) !! tier
  = Some (tierPipeline (tierInput modelsData category subcategory tier)
                       threshold target).
Proof.
  intros Hin. rewrite grouped_unfold. cbn zeta. cbn [tiers].
  unfold TIERS in Hin. simpl in Hin.
  destruct Hin as [<-|[<-|[<-|[<-|[]]]]]; by simplify_map_eq.
Qed.









(** ** Classifier routing on the page *)

Import Page.

Lemma route_not_ready (st : PageState) :
  classifierReady st = false -> route st = Fallback.
Proof.
  unfold route. intros ->. now rewrite andb_false_r.
Qed.

Section Routing.
Variable taskClassifier : string -> Completion ClassifyResult.
Variable fallbackClassifier : string -> Completion ClassifyResult.

Lemma prefillFrom_flags (result : ClassifyResult) (st : PageState) :
  usingFallback (prefillFrom result st) = usingFallback st
  /\ classifierReady (prefillFrom result st) = classifierReady st
  /\ calls (prefillFrom result st) = calls st.
Proof.
  unfold prefillFrom.
  destruct (topPrediction result) as [top|]; [|auto].
  destruct (truthy (category top)); auto.
Qed.

(** A classification call always completes, logs one call to the classifier
    the flags select, and leaves the flags alone. *)
Lemma handleClassify_returns (st : PageState) (taskDescription : string) :
  exists st',
    handleClassify taskClassifier fallbackClassifier st taskDescription
      = Returned st'
    /\ usingFallback st' = usingFallback st
    /\ classifierReady st' = classifierReady st
    /\ calls st' = (route st, taskDescription) :: calls st.
Proof.
  unfold handleClassify.
  destruct (classifyWith _ _ (route st) taskDescription) as [result|].
  - eexists. split; [reflexivity|].
    destruct (prefillFrom_flags result
                (logCall (route st) taskDescription st)) as (-> & -> & ->).
    auto.
  - eexists. split; [reflexivity|]. auto.
Qed.

Lemma step_not_ready (st : PageState) (e : Event) :
  classifierReady st = false -> isReadyEvent e = false ->
  exists st',
    step taskClassifier fallbackClassifier st e = Returned st'
    /\ classifierReady st' = false
    /\ exists new,
         calls st' = new ++ calls st /\ Forall toFallback new
         /\ length new = classifyCount [e].
Proof.
  intros Hst He. destruct e as [p|initResult|taskDescription]; simpl.
  - eexists. split; [reflexivity|]. unfold onProgress.
    simpl in He. destruct (status p); try discriminate He;
      (split; [exact Hst|]); exists []; repeat split; constructor.
  - eexists. split; [reflexivity|].
    destruct initResult as [[|]|]; try discriminate He;
      (split; [exact Hst|]); exists []; repeat split; constructor.
  - destruct (handleClassify_returns st taskDescription)
      as (st' & Hrun & _ & Hready & Hcalls).
    exists st'. split; [exact Hrun|]. split; [congruence|].
    exists [(route st, taskDescription)]. split; [exact Hcalls|].
    split; [|reflexivity].
    constructor; [|constructor]. now apply route_not_ready.
Qed.

Lemma classifyCount_cons (e : Event) (events : list Event) :
  classifyCount (e :: events)
  = (classifyCount [e] + classifyCount events)%nat.
Proof.
  unfold classifyCount. simpl. destruct (isClassifyEvent e); reflexivity.
Qed.

(** While the embedding classifier has not become ready, the page stays
    on the fallback classifier. *)
Lemma run_not_ready (events : list Event) :
  forall st,
    classifierReady st = false ->
    (forall e, In e events -> isReadyEvent e = false) ->
    exists st',
      run taskClassifier fallbackClassifier st events = Returned st'
      /\ classifierReady st' = false
      /\ exists new,
           calls st' = new ++ calls st /\ Forall toFallback new
           /\ length new = classifyCount events.
Proof.
  induction events as [|e events IH]; intros st Hst Hnever.
  - exists st. split; [reflexivity|]. split; [exact Hst|].
    exists []. repeat split; constructor.
  - destruct (step_not_ready st e Hst)
      as (st1 & Hstep & Hst1 & new1 & Hc1 & Hf1 & Hl1).
    { apply Hnever. now left. }
    destruct (IH st1 Hst1) as (st2 & Hrun & Hst2 & new2 & Hc2 & Hf2 & Hl2).
    { intros e' He'. apply Hnever. now right. }
    exists st2. simpl. rewrite Hstep.
    split; [exact Hrun|]. split; [exact Hst2|].
    exists (new2 ++ new1). split; [|split].
    + rewrite Hc2, Hc1. now rewrite app_assoc.
    + apply Forall_app. split; assumption.
    + rewrite length_app, classifyCount_cons. lia.
Qed.

(** On the fallback route a call is the fallback classifier's call. *)
Lemma handleClassify_fallback (st : PageState) (taskDescription : string) :
  route st = Fallback ->
  handleClassify taskClassifier fallbackClassifier st taskDescription
  = Session.classifyBy Fallback fallbackClassifier st taskDescription.
Proof.
  unfold handleClassify, Session.classifyBy. now intros ->.
Qed.

(** On the embedding route a call is the embedding classifier's call. *)
Lemma handleClassify_embedding (st : PageState) (taskDescription : string) :
  route st = Embedding ->
  handleClassify taskClassifier fallbackClassifier st taskDescription
  = Session.classifyBy Embedding taskClassifier st taskDescription.
Proof.
  unfold handleClassify, Session.classifyBy. now intros ->.
Qed.

(** While the embedding classifier has not become ready, the page behaves
    as the page that has the fallback classifier only. *)
Lemma run_not_ready_by (events : list Event) :
  forall st,
    classifierReady st = false ->
    (forall e, In e events -> isReadyEvent e = false) ->
    run taskClassifier fallbackClassifier st events
    = Session.runBy Fallback fallbackClassifier st events.
Proof.
  induction events as [|e events IH]; intros st Hst Hnever; [reflexivity|].
  destruct (step_not_ready st e Hst) as (st1 & Hstep & Hst1 & _).
  { apply Hnever. now left. }
  assert (step taskClassifier fallbackClassifier st e
          = match e with
            | ProgressEvent p => Returned (onProgress p st)
            | InitializeEnds initResult =>
                Returned (afterInitialize initResult st)
            | ClassifyEvent taskDescription =>
                Session.classifyBy Fallback fallbackClassifier st
                                   taskDescription
            end) as Hsame.
  { destruct e as [p|initResult|taskDescription]; try reflexivity.
    apply handleClassify_fallback. now apply route_not_ready. }
  cbn [run Session.runBy]. cbn zeta. rewrite <- Hsame, Hstep.
  apply IH; [exact Hst1|]. intros e' He'. apply Hnever. now right.
Qed.

End Routing.

(** C6: suppose the embedding classifier never reaches the ready state (no
    progress report says ready and [initialize] does not succeed) and its
    initialisation ends in error: the promise resolves without success or
    rejects.  Then, whatever both classifiers answer or throw, every
    classification call made afterwards completes without throwing and is
    served by the fallback classifier: the page ends in the state of the
    page that has the fallback classifier only, each further call pre-fills
    the form from the fallback classifier's answer, and the embedding
    classifier is not invoked, so that replacing it by any other changes
    nothing. *)
Theorem fallback_after_failed_initialization
    (taskClassifier fallbackClassifier : string -> Completion ClassifyResult)
    (before after : list Event) (initResult : Completion bool) :
  initResult <> Returned true ->
  (forall e, In e (before ++ after) -> isReadyEvent e = false) ->
  exists st1 st2 new,
    run taskClassifier fallbackClassifier initialState
        (before ++ [InitializeEnds initResult]) = Returned st1
    /\ run taskClassifier fallbackClassifier st1 after = Returned st2
    /\ calls st2 = new ++ calls st1
    /\ length new = classifyCount after
    /\ Forall toFallback new
    /\ route st2 = Fallback
    /\ Session.runBy Fallback fallbackClassifier st1 after = Returned st2
    /\ (forall other : string -> Completion ClassifyResult,
          run other fallbackClassifier initialState
              (before ++ [InitializeEnds initResult]) = Returned st1
          /\ run other fallbackClassifier st1 after = Returned st2)
    /\ (forall taskDescription,
          handleClassify taskClassifier fallbackClassifier st2 taskDescription
          = match fallbackClassifier taskDescription with
            | Returned result =>
                Returned (prefillFrom result
                            (logCall Fallback taskDescription st2))
            | Threw => Returned (logCall Fallback taskDescription st2)
            end).
Proof.
  intros Hfail Hnever.
  assert (forall e, In e (before ++ [InitializeEnds initResult]) ->
                    isReadyEvent e = false) as Hfirst.
  { intros e [He|[<-|[]]]%in_app_or.
    - apply Hnever, in_or_app. now left.
    - destruct initResult as [[|]|]; [congruence | reflexivity..]. }
  assert (forall e, In e after -> isReadyEvent e = false) as Hrest.
  { intros e He. apply Hnever, in_or_app. now right. }
  destruct (run_not_ready taskClassifier fallbackClassifier
              (before ++ [InitializeEnds initResult]) initialState)
    as (st1 & Hrun1 & Hst1 & _); [reflexivity | exact Hfirst |].
  destruct (run_not_ready taskClassifier fallbackClassifier after st1 Hst1)
    as (st2 & Hrun2 & Hst2 & new & Hcalls & Hfb & Hlen); [exact Hrest|].
  exists st1, st2, new.
  split; [exact Hrun1|]. split; [exact Hrun2|]. split; [exact Hcalls|].
  split; [exact Hlen|]. split; [exact Hfb|].
  split; [now apply route_not_ready|].
  split; [|split].
  - rewrite <- Hrun2. symmetry. now apply run_not_ready_by.
  - intros other.
    rewrite (run_not_ready_by other fallbackClassifier _ initialState),
      (run_not_ready_by other fallbackClassifier after st1);
      [|assumption..|reflexivity|assumption].
    rewrite <- (run_not_ready_by taskClassifier fallbackClassifier _
                  initialState),
      <- (run_not_ready_by taskClassifier fallbackClassifier after st1);
      [|assumption..|reflexivity|assumption].
    split; assumption.
  - intros taskDescription.
    apply handleClassify_fallback. now apply route_not_ready.
Qed.

Lemma fallback_after_failed_initialization_witness :
  exists st,
    run (fun _ => Returned Fixture.lowConfidence)
        (fun _ => Returned Fixture.keywordAnswer)
        initialState
        [ProgressEvent (mkProgress Downloading "Downloading model" 40);
         ProgressEvent (mkProgress Error "Network error" 0);
         InitializeEnds (Returned false);
         ClassifyEvent "classify product images";
         ClassifyEvent "translate a document"] = Returned st
    /\ calls st = [(Fallback, "translate a document"%string);
                   (Fallback, "classify product images"%string)]
    /\ prefillCategory st = Some "natural_language_processing"%string
    /\ run (fun _ => Threw) (fun _ => Returned Fixture.keywordAnswer)
           initialState
           [ProgressEvent (mkProgress Downloading "Downloading model" 40);
            ProgressEvent (mkProgress Error "Network error" 0);
            InitializeEnds (Returned false);
            ClassifyEvent "classify product images";
            ClassifyEvent "translate a document"] = Returned st.
Proof.
  destruct (fallback_after_failed_initialization
              (fun _ => Returned Fixture.lowConfidence)
              (fun _ => Returned Fixture.keywordAnswer)
              [ProgressEvent (mkProgress Downloading "Downloading model" 40);
               ProgressEvent (mkProgress Error "Network error" 0)]
              [ClassifyEvent "classify product images";
               ClassifyEvent "translate a document"]
              (Returned false))
    as (st1 & st2 & new & H1 & H2 & _ & _ & _ & _ & Hby & Hother & _).
  - discriminate.
  - simpl. intros e [<-|[<-|[<-|[<-|[]]]]]; reflexivity.
  - exists st2. simpl in H1. injection H1 as <-.
    split; [exact H2|].
    destruct (Hother (fun _ => Threw)) as [_ H2'].
    simpl in Hby. injection Hby as <-.
    split; [reflexivity|]. split; [reflexivity|]. exact H2'.
Defined.

(** C5, as stated, fails: with the embedding classifier ready, an answer of
    confidence 0.5 is below 0.70 and its label is nevertheless taken over as
    the prediction. *)
Lemma low_confidence_label_is_accepted :
  let ready := afterInitialize (Returned true) initialState in
  let answer := fun _ : string => Returned Fixture.lowConfidence in
  route ready = Embedding
  /\ (orElse (confidence Fixture.lowConfidence) 0 < 0.70)%Q
  /\ exists st',
       handleClassify answer answer ready "classify product images"
         = Returned st'
       /\ prefillCategory st' = Some "computer_vision"%string
       /\ prefillSubcategory st' = Some "image_classification"%string
       /\ prefillConfidence st' = 0.5%Q.
Proof.
  cbn zeta. split; [reflexivity|]. split; [reflexivity|].
  eexists. split; [reflexivity|]. simpl. auto.
Qed.

(** C5, amended: [handleClassify] applies no confidence test and has no
    clarification state.  Whenever the classifier it selects answers with a
    top prediction that carries a category, that category and subcategory are
    pre-filled together with the reported confidence (0 when none is
    reported), whatever the confidence is; the routing flags are left as
    they were. *)
Theorem prefill_ignores_confidence
    (taskClassifier fallbackClassifier : string -> Completion ClassifyResult)
    (st : PageState) (taskDescription : string)
    (result : ClassifyResult) (top : Prediction) (label : string) :
  classifyWith taskClassifier fallbackClassifier (route st) taskDescription
    = Returned result ->
  topPrediction result = Some top ->
  truthy (category top) = Some label ->
  exists st',
    handleClassify taskClassifier fallbackClassifier st taskDescription
      = Returned st'
    /\ prefillCategory st' = Some label
    /\ prefillSubcategory st' = truthy (subcategory top)
    /\ prefillConfidence st' = orElse (confidence result) 0%Q
    /\ usingFallback st' = usingFallback st
    /\ classifierReady st' = classifierReady st.
Proof.
  intros Hcall Htop Hlabel. unfold handleClassify. rewrite Hcall.
  eexists. split; [reflexivity|].
  unfold prefillFrom. rewrite Htop, Hlabel. simpl. auto 6.
Qed.

Lemma prefill_ignores_confidence_witness :
  exists st',
    handleClassify (fun _ => Threw) (fun _ => Returned Fixture.lowConfidence)
                   initialState "classify product images" = Returned st'
    /\ prefillCategory st' = Some "computer_vision"%string
    /\ prefillConfidence st' = 0.5%Q.
Proof.
  destruct (prefill_ignores_confidence
              (fun _ => Threw) (fun _ => Returned Fixture.lowConfidence)
              initialState "classify product images" Fixture.lowConfidence
              {| category := Some "computer_vision"%string;
                 subcategory := Some "image_classification"%string |}
              "computer_vision")
    as (st' & Hrun & Hcat & _ & Hconf & _); try reflexivity.
  exists st'. auto.
Defined.

(** ** The scenarios of tests/deployment-filter.test.js *)

Example test_all_models_when_deployment_is_null :
  totalShown (getTaskModelsGroupedByTier Fixture.mockModelsData
                "computer_vision" "image_classification" 0 None) = 6.
Proof. vm_compute. reflexivity. Qed.

Example test_browser_models_across_tiers :
  let r := getTaskModelsGroupedByTier Fixture.mockModelsData
             "computer_vision" "image_classification" 0
             (Some "browser"%string) in
  ids (tiers r !! "lightweight"%string) = Some ["browser-model"%string]
  /\ ids (tiers r !! "standard"%string) = Some ["standard-browser"%string]
  /\ ids (tiers r !! "advanced"%string) = Some []
  /\ totalShown r = 2.
Proof. vm_compute. auto. Qed.

Example test_combines_accuracy_and_deployment :
  let r := getTaskModelsGroupedByTier Fixture.mockModelsData
             "computer_vision" "image_classification" 85
             (Some "browser"%string) in
  ids (tiers r !! "lightweight"%string) = Some []
  /\ ids (tiers r !! "standard"%string) = Some ["standard-browser"%string]
  /\ totalShown r = 1.
Proof. vm_compute. auto. Qed.

Example test_impossible_filter_combination :
  totalShown (getTaskModelsGroupedByTier Fixture.mockModelsData
                "computer_vision" "image_classification" 94
                (Some "browser"%string)) = 0.
Proof. vm_compute. reflexivity. Qed.

(** * Further properties of the code *)

(** ** Selection *)


Lemma rankBySize_StronglySorted (ms : list Model) :
  Forall taggedWithTier ms -> StronglySorted tierThenSize (rankBySize ms).
Proof.
  intros Htag. apply Sorted_tierThenSize; [now apply rankBySize_tagged|].
  apply sort_Sorted. exact compareModels_flip.
Qed.




(** ** Counting the catalog *)

Lemma taskData_lengths (tiers : gmap string (list Model))
    (category subcategory : string) :
  countModels tiers
  = length_of (tierModelsOf tiers category subcategory "lightweight")
    + length_of (tierModelsOf tiers category subcategory "standard")
    + length_of (tierModelsOf tiers category subcategory "advanced")
    + length_of (tierModelsOf tiers category subcategory "xlarge").
Proof.
  unfold countModels, tierModelsOf, TIERS, length_of. simpl.
  rewrite !length_map.
  destruct (tiers !! "lightweight"%string), (tiers !! "standard"%string),
    (tiers !! "advanced"%string), (tiers !! "xlarge"%string);
    simpl; lia.
Qed.

Lemma getTaskModels_length (modelsData : Catalog)
    (category subcategory : string) :
  length_of (getTaskModels modelsData category subcategory)
  = length_of (tierInput modelsData category subcategory "lightweight")
    + length_of (tierInput modelsData category subcategory "standard")
    + length_of (tierInput modelsData category subcategory "advanced")
    + length_of (tierInput modelsData category subcategory "xlarge").
Proof.
  unfold getTaskModels, tierInput.
  destruct (taskDataOf modelsData category subcategory) as [taskData|];
    [|reflexivity].
  unfold TIERS, tierModelsOf, length_of. simpl.
  rewrite app_nil_r, !length_app, !length_map. lia.
Qed.

Lemma getTaskModels_count (modelsData : Catalog)
    (category subcategory : string) (tiers : gmap string (list Model)) :
  taskDataOf modelsData category subcategory = Some tiers ->
  countModels tiers
  = length_of (getTaskModels modelsData category subcategory).
Proof.
  intros H. rewrite getTaskModels_length.
  rewrite (taskData_lengths tiers category subcategory).
  unfold tierInput. now rewrite H.
Qed.

Lemma length_of_app {A} (l k : list A) :
  length_of (l ++ k) = length_of l + length_of k.
Proof. unfold length_of. rewrite length_app. lia. Qed.

Lemma length_of_rank (ms : list Model) :
  length_of (rankBySize ms) = length_of ms.
Proof.
  unfold length_of. f_equal. symmetry. apply Permutation_length, sort_perm.
Qed.

Lemma filterByDeployment_noTarget (ms : list Model) (target : option string) :
  noTarget target = true -> filtered (filterByDeployment ms target) = ms.
Proof.
  unfold filterByDeployment. intros H.
  destruct target as [d|]; [|reflexivity].
  simpl in H. now rewrite H.
Qed.




Lemma unfiltered_pipeline (input : list Model) (threshold : Q)
    (target : option string) :
  (threshold == 0)%Q -> noTarget target = true ->
  tierPipeline input threshold target
  = {| models := rankBySize input; tierHidden := 0 |}.
Proof.
  intros Ht Hd. unfold tierPipeline, filterByAccuracy.
  apply Qeq_bool_iff in Ht. rewrite Ht. simpl.
  unfold filterByDeployment.
  destruct target as [d|]; [|reflexivity].
  simpl in Hd. rewrite Hd. reflexivity.
Qed.

Lemma unfiltered_totals (modelsData : Catalog) (category subcategory : string)
    (threshold : Q) (target : option string) :
  (threshold == 0)%Q -> noTarget target = true ->
  let r := getTaskModelsGroupedByTier modelsData category subcategory
                                      threshold target in
  totalHidden r = 0
  /\ totalShown r = length_of (getTaskModels modelsData category subcategory).
Proof.
  intros Ht Hd. cbn zeta. rewrite grouped_unfold, getTaskModels_length.
  cbn zeta. cbn [totalShown totalHidden].
  rewrite <- !tierPipeline_shown, !unfiltered_pipeline by assumption.
  cbn [models tierHidden]. rewrite !length_of_rank. split; reflexivity.
Qed.



Lemma availableSubcategories_lookup
    (subcats : gmap string (gmap string (list Model))) (s : string) :
  availableSubcategories subcats !! s
  = match subcats !! s with
    | Some tiers =>
        if 0 <? countModels tiers then Some (countModels tiers) else None
    | None => None
    end.
Proof.
  unfold availableSubcategories. rewrite lookup_omap.
  destruct (subcats !! s); reflexivity.
Qed.

Lemma getAvailableCategories_category (modelsData : Catalog) (c : string) :
  getAvailableCategories modelsData !! c
  = match modelsData !! c with
    | Some subcats =>
        if (0 <? size (availableSubcategories subcats))%nat
        then Some (availableSubcategories subcats) else None
    | None => None
    end.
Proof.
  unfold getAvailableCategories. rewrite lookup_omap.
  destruct (modelsData !! c); reflexivity.
Qed.

Lemma listed_nonempty (modelsData : Catalog) (c : string)
    (subs : gmap string Z) :
  getAvailableCategories modelsData !! c = Some subs -> subs <> ∅.
Proof.
  rewrite getAvailableCategories_category. intros Hsubs.
  destruct (modelsData !! c) as [subcats|]; [|discriminate].
  destruct (0 <? size (availableSubcategories subcats))%nat eqn:E;
    [|discriminate].
  injection Hsubs as <-. apply Nat.ltb_lt in E.
  intros H0. apply map_size_empty_iff in H0. lia.
Qed.

(** The count listed for a pair, read off the catalog. *)
Lemma listed_count (modelsData : Catalog) (c s : string) :
  (getAvailableCategories modelsData !! c) ≫= (.!! s)
  = match taskDataOf modelsData c s with
    | Some tiers =>
        if 0 <? countModels tiers then Some (countModels tiers) else None
    | None => None
    end.
Proof.
  rewrite getAvailableCategories_category. unfold taskDataOf.
  destruct (modelsData !! c) as [subcats|]; [|reflexivity].
  rewrite <- availableSubcategories_lookup.
  destruct (0 <? size (availableSubcategories subcats))%nat eqn:E;
    [reflexivity|].
  apply Nat.ltb_ge in E.
  assert (availableSubcategories subcats = ∅) as ->
    by (apply map_size_empty_iff; lia).
  simpl. now rewrite lookup_empty.
Qed.

Lemma listed_iff (modelsData : Catalog) (c s : string) (n : Z) :
  (getAvailableCategories modelsData !! c) ≫= (.!! s) = Some n
  <-> n = length_of (getTaskModels modelsData c s) /\ 0 < n.
Proof.
  rewrite listed_count.
  destruct (taskDataOf modelsData c s) as [tiers|] eqn:Htd.
  - rewrite <- (getTaskModels_count _ _ _ _ Htd).
    destruct (0 <? countModels tiers) eqn:E.
    + apply Z.ltb_lt in E.
      split; [intros [= <-]; auto | intros [-> _]; reflexivity].
    + apply Z.ltb_ge in E. split; [discriminate | intros [-> ?]; lia].
  - unfold getTaskModels. rewrite Htd.
    split; [discriminate | intros [-> H]; vm_compute in H; discriminate H].
Qed.

(** X5: [getAvailableCategories] lists a (category, subcategory) pair with count
    n exactly when [getTaskModels] returns n models for the pair and n is
    positive: a pair without models is never listed.  For a listed pair the
    grouping without filters shows exactly n models and hides none. *)
Theorem getAvailableCategories_counts (modelsData : Catalog)
    (category subcategory : string) (n : Z) :
  ((getAvailableCategories modelsData !! category) ≫= (.!! subcategory)
     = Some n
   <-> n = length_of (getTaskModels modelsData category subcategory)
       /\ 0 < n)
  /\ ((getAvailableCategories modelsData !! category) ≫= (.!! subcategory)
        = Some n ->
      let r := getTaskModelsGroupedByTier modelsData category subcategory
                                          0 None in
      totalShown r = n /\ totalHidden r = 0).
Proof.
  split; [apply listed_iff|].
  intros H. apply listed_iff in H as [-> _]. cbn zeta.
  destruct (unfiltered_totals modelsData category subcategory 0 None)
    as [H0 Hshown]; [reflexivity | reflexivity |].
  split; assumption.
Qed.

Lemma getAvailableCategories_counts_witness :
  totalShown (getTaskModelsGroupedByTier Fixture.mockModelsData
                "computer_vision" "image_classification" 0 None) = 6.
Proof.
  apply (proj2 (getAvailableCategories_counts Fixture.mockModelsData
                  "computer_vision" "image_classification" 6)).
  vm_compute. reflexivity.
Defined.

(** X6: A category is listed by [getAvailableCategories] exactly when one of its
    subcategories has a model; a listed category never has an empty entry
    and never a count of 0. *)
Theorem getAvailableCategories_no_empty_category (modelsData : Catalog)
    (category : string) :
  (forall subs, getAvailableCategories modelsData !! category = Some subs ->
     subs <> ∅ /\ forall s n, subs !! s = Some n -> 0 < n)
  /\ (is_Some (getAvailableCategories modelsData !! category)
      <-> exists subcategory,
            getTaskModels modelsData category subcategory <> []).
Proof.
  split.
  - intros subs Hsubs. split; [exact (listed_nonempty _ _ _ Hsubs)|].
    intros s n Hn.
    apply (listed_iff modelsData category s n).
    rewrite Hsubs. exact Hn.
  - split.
    + intros [subs Hsubs].
      pose proof (listed_nonempty _ _ _ Hsubs) as Hne.
      apply map_choose in Hne as (s & n & Hn).
      exists s.
      assert ((getAvailableCategories modelsData !! category)
                ≫= (.!! s) = Some n) as H by (rewrite Hsubs; exact Hn).
      apply listed_iff in H as [-> Hpos].
      intros Hnil. rewrite Hnil in Hpos. vm_compute in Hpos.
      discriminate Hpos.
    + intros [s Hs].
      assert (0 < length_of (getTaskModels modelsData category s)) as Hpos.
      { unfold length_of.
        destruct (getTaskModels modelsData category s); [congruence|].
        simpl. lia. }
      pose proof (proj2 (listed_iff modelsData category s _)
                        (conj eq_refl Hpos)) as H.
      destruct (getAvailableCategories modelsData !! category);
        [eauto | discriminate].
Qed.

Lemma getAvailableCategories_no_empty_category_witness :
  getAvailableCategories
    ({[ "empty_cat"%string := {[ "empty_sub"%string := ∅ ]} ]} : Catalog)
    !! "empty_cat"%string = None.
Proof.
  destruct (getAvailableCategories
              ({[ "empty_cat"%string := {[ "empty_sub"%string := ∅ ]} ]}
               : Catalog) !! "empty_cat"%string) as [subs|] eqn:E;
    [|reflexivity].
  exfalso.
  destruct (proj1 (getAvailableCategories_no_empty_category _ _) subs E)
    as [Hne _].
  apply Hne. vm_compute in E. discriminate E.
Defined.

(** ** Tiers, scores and deployment options of the catalog builder *)

Lemma Qle_bool_false (x y : Q) : Qle_bool x y = false <-> (y < x)%Q.
Proof.
  split.
  - intros H. apply Qnot_le_lt. intros Hle. apply Qle_bool_iff in Hle.
    congruence.
  - intros H. destruct (Qle_bool x y) eqn:E; [|reflexivity].
    apply Qle_bool_iff in E. lra.
Qed.

Ltac size_cases s :=
  let E1 := fresh "E" in let E2 := fresh "E" in
  let E3 := fresh "E" in let E4 := fresh "E" in
  destruct (Qle_bool s 100) eqn:E1; destruct (Qle_bool s 500) eqn:E2;
  destruct (Qle_bool s 4000) eqn:E3; destruct (Qle_bool s 20000) eqn:E4;
  try apply Qle_bool_iff in E1; try apply Qle_bool_false in E1;
  try apply Qle_bool_iff in E2; try apply Qle_bool_false in E2;
  try apply Qle_bool_iff in E3; try apply Qle_bool_false in E3;
  try apply Qle_bool_iff in E4; try apply Qle_bool_false in E4;
  try (exfalso; lra).

Lemma determineTier_cases (s : Q) :
  ((s <= 500)%Q /\ Aggregator.determineTier s = "lightweight"%string
   /\ Aggregator.calculateEnvironmentalScore s = 1)
  \/ ((500 < s)%Q /\ (s <= 4000)%Q
      /\ Aggregator.determineTier s = "standard"%string
      /\ Aggregator.calculateEnvironmentalScore s = 2)
  \/ ((4000 < s)%Q /\ (s <= 20000)%Q
      /\ Aggregator.determineTier s = "advanced"%string
      /\ Aggregator.calculateEnvironmentalScore s = 3)
  \/ ((20000 < s)%Q /\ Aggregator.determineTier s = "xlarge"%string
      /\ Aggregator.calculateEnvironmentalScore s = 3).
Proof.
  unfold Aggregator.determineTier, Aggregator.calculateEnvironmentalScore.
  size_cases s; tauto.
Qed.

Lemma score_monotone (s1 s2 : Q) :
  (s1 <= s2)%Q ->
  Aggregator.calculateEnvironmentalScore s1
  <= Aggregator.calculateEnvironmentalScore s2.
Proof.
  intros Hle.
  destruct (determineTier_cases s1) as [H1|[H1|[H1|H1]]];
    destruct (determineTier_cases s2) as [H2|[H2|[H2|H2]]];
    destruct_and!;
    repeat match goal with H : _ = _ |- _ => rewrite H; clear H end;
    try (exfalso; lra); lia.
Qed.

Lemma tierIndex_monotone (s1 s2 : Q) :
  (s1 <= s2)%Q ->
  exists p q,
    tierIndex (Aggregator.determineTier s1) = Some p
    /\ tierIndex (Aggregator.determineTier s2) = Some q
    /\ (p <= q)%nat.
Proof.
  intros Hle.
  destruct (determineTier_cases s1) as [H1|[H1|[H1|H1]]];
    destruct (determineTier_cases s2) as [H2|[H2|[H2|H2]]];
    destruct_and!;
    repeat match goal with H : _ = _ |- _ => rewrite H; clear H end;
    try (exfalso; lra);
    eexists _, _; (split; [reflexivity|]); (split; [reflexivity|]); lia.
Qed.

(** X12: [determineTier] always answers with one of the tiers the selector
    iterates over, and a larger model never gets an earlier tier, or a lower
    environmental score, than a smaller one. *)
Theorem determineTier_monotone (s1 s2 : Q) :
  (s1 <= s2)%Q ->
  exists p q,
    tierIndex (Aggregator.determineTier s1) = Some p
    /\ tierIndex (Aggregator.determineTier s2) = Some q
    /\ (p <= q)%nat
    /\ In (Aggregator.determineTier s1) TIERS
    /\ Aggregator.calculateEnvironmentalScore s1
       <= Aggregator.calculateEnvironmentalScore s2.
Proof.
  intros Hle.
  destruct (tierIndex_monotone s1 s2 Hle) as (p & q & Hp & Hq & Hpq).
  exists p, q. split; [exact Hp|]. split; [exact Hq|]. split; [exact Hpq|].
  split; [|now apply score_monotone].
  destruct (determineTier_cases s1) as [H|[H|[H|H]]]; destruct_and!;
    match goal with H : Aggregator.determineTier _ = _ |- _ => rewrite H end;
    unfold TIERS; simpl; tauto.
Qed.

Lemma determineTier_monotone_witness :
  exists p q,
    tierIndex (Aggregator.determineTier 500) = Some p
    /\ tierIndex (Aggregator.determineTier 501) = Some q /\ (p <= q)%nat.
Proof.
  destruct (determineTier_monotone 500 501) as (p & q & Hp & Hq & Hle & _).
  - vm_compute. discriminate.
  - exists p, q. auto.
Defined.

Lemma orZero_eq (x : Q) : (Impact.orZero x == x)%Q.
Proof.
  unfold Impact.orZero. destruct (Qeq_bool x 0) eqn:E; [|reflexivity].
  apply Qeq_bool_iff in E. now rewrite E.
Qed.

Lemma Qle_bool_orZero (x y : Q) :
  Qle_bool (Impact.orZero x) y = Qle_bool x y.
Proof.
  destruct (Qle_bool x y) eqn:E.
  - apply Qle_bool_iff. apply Qle_bool_iff in E. now rewrite orZero_eq.
  - apply Qle_bool_false. apply Qle_bool_false in E. now rewrite orZero_eq.
Qed.

Lemma calculateImpact_score (model : Model) :
  exists r,
    Impact.calculateImpact model = Some r
    /\ Impact.environmentalScore r
       = Aggregator.calculateEnvironmentalScore (sizeMB model).
Proof.
  unfold Impact.calculateImpact, Impact.getTier, Impact.SCORE_TIERS.
  cbn [List.find Impact.maxMB]. rewrite !Qle_bool_orZero.
  unfold Aggregator.calculateEnvironmentalScore.
  destruct (Qle_bool (sizeMB model) 500);
    [|destruct (Qle_bool (sizeMB model) 4000)];
    eexists; split; reflexivity.
Qed.

(** X15: [calculateImpact] never fails, whatever the size: the last score tier
    has no upper bound.  Its score is the one the catalog builder's
    [calculateEnvironmentalScore] computes, and its tier is the builder's
    [determineTier] up to 20000 MB; above, it reports advanced where the
    builder says xlarge. *)
Theorem calculateImpact_agrees_with_builder (model : Model) :
  exists r,
    Impact.calculateImpact model = Some r
    /\ Impact.environmentalScore r
       = Aggregator.calculateEnvironmentalScore (sizeMB model)
    /\ (Impact.impactSizeMB r == sizeMB model)%Q
    /\ (((sizeMB model <= 20000)%Q
         /\ Impact.impactTier r = Aggregator.determineTier (sizeMB model))
        \/ ((20000 < sizeMB model)%Q
            /\ Impact.impactTier r = "advanced"%string
            /\ Aggregator.determineTier (sizeMB model) = "xlarge"%string)).
Proof.
  unfold Impact.calculateImpact, Impact.getTier, Impact.SCORE_TIERS.
  cbn [List.find Impact.maxMB]. rewrite !Qle_bool_orZero.
  unfold Aggregator.calculateEnvironmentalScore, Aggregator.determineTier.
  size_cases (sizeMB model);
    (eexists; split; [reflexivity|]; cbn;
     split; [reflexivity|]; split; [apply orZero_eq|]);
    first [left; split; [lra | reflexivity]
          | right; split; [lra|]; split; reflexivity].
Qed.

Lemma impact_score_monotone (a b : Model) (ra rb : Impact.ImpactResult) :
  Impact.calculateImpact a = Some ra -> Impact.calculateImpact b = Some rb ->
  Impact.environmentalScore ra < Impact.environmentalScore rb ->
  (sizeMB a < sizeMB b)%Q.
Proof.
  intros Ha Hb.
  destruct (calculateImpact_score a) as (ra' & Ha' & Hsa).
  destruct (calculateImpact_score b) as (rb' & Hb' & Hsb).
  assert (ra' = ra) as -> by congruence.
  assert (rb' = rb) as -> by congruence.
  rewrite Hsa, Hsb. intros Hlt.
  destruct (Qlt_le_dec (sizeMB a) (sizeMB b)) as [H|H]; [exact H|].
  pose proof (score_monotone _ _ H) as Hle. lia.
Qed.

(** A pair as [compareModels] builds it. *)
Lemma compareImpact_paired (a b : Model * Impact.ImpactResult) :
  Impact.calculateImpact (fst a) = Some (snd a) ->
  Impact.calculateImpact (fst b) = Some (snd b) ->
  (notAfter Impact.compareImpact a b -> (sizeMB (fst a) <= sizeMB (fst b))%Q)
  /\ (~ notAfter Impact.compareImpact a b -> notAfter Impact.compareImpact b a).
Proof.
  intros Ha Hb. unfold notAfter, Impact.compareImpact, jsOr.
  pose proof (impact_score_monotone _ _ _ _ Ha Hb) as Hab.
  pose proof (impact_score_monotone _ _ _ _ Hb Ha) as Hba.
  pose proof (orZero_eq (sizeMB (fst a))) as Za.
  pose proof (orZero_eq (sizeMB (fst b))) as Zb.
  destruct (Qeq_bool (inject_Z (Impact.environmentalScore (snd a)
                                - Impact.environmentalScore (snd b))) 0)
    eqn:E.
  - apply Qeq_bool_inject_Z_0 in E.
    assert (Qeq_bool (inject_Z (Impact.environmentalScore (snd b)
                                - Impact.environmentalScore (snd a))) 0
            = true) as -> by (apply Qeq_bool_inject_Z_0; lia).
    split; intros H; lra.
  - assert (Impact.environmentalScore (snd a)
            - Impact.environmentalScore (snd b) <> 0) as Hne.
    { intros H. apply Qeq_bool_inject_Z_0 in H. congruence. }
    assert (Qeq_bool (inject_Z (Impact.environmentalScore (snd b)
                                - Impact.environmentalScore (snd a))) 0
            = false) as ->.
    { apply not_true_is_false. intros E'.
      apply Qeq_bool_inject_Z_0 in E'. lia. }
    rewrite !inject_Z_le_0. split; intros H.
    + assert (Impact.environmentalScore (snd a)
              < Impact.environmentalScore (snd b)) as Hlt by lia.
      specialize (Hab Hlt). lra.
    + lia.
Qed.

Lemma Sorted_paired_sizes (l : list (Model * Impact.ImpactResult)) :
  Forall (fun p => Impact.calculateImpact (fst p) = Some (snd p)) l ->
  Sorted (notAfter Impact.compareImpact) l ->
  StronglySorted (fun a b => (sizeMB a <= sizeMB b)%Q) (map fst l).
Proof.
  intros Hp Hs. apply Sorted_StronglySorted.
  { intros a b c Hab Hbc. lra. }
  induction Hs as [|x l Hs IH Hhd]; simpl; [constructor|].
  apply Forall_cons in Hp as [Hx Hl].
  constructor; [now apply IH|].
  destruct Hhd as [|y l' Hxy]; simpl; constructor.
  apply Forall_cons in Hl as [Hy _].
  now apply (compareImpact_paired x y).
Qed.

Lemma insert_sorted_Sorted_on {A} (cmp : A -> A -> Q) (D : A -> Prop)
    (x : A) (l : list A) :
  (forall a b, D a -> D b -> ~ notAfter cmp a b -> notAfter cmp b a) ->
  D x -> Forall D l ->
  Sorted (notAfter cmp) l -> Sorted (notAfter cmp) (insert_sorted cmp x l).
Proof.
  intros Hflip Hx Hl Hs.
  induction Hs as [|y l Hs IH Hhd]; simpl.
  - repeat constructor.
  - apply Forall_cons in Hl as [Hy Hl].
    destruct (Qle_bool (cmp x y) 0) eqn:Hxy.
    + apply Qle_bool_iff in Hxy. repeat constructor; assumption.
    + assert (notAfter cmp y x) as Hyx.
      { apply Hflip; auto. intros H. apply Qle_bool_iff in H. congruence. }
      constructor; [now apply IH|].
      destruct Hhd as [|z l' Hyz]; simpl.
      * now constructor.
      * destruct (Qle_bool (cmp x z) 0); now constructor.
Qed.

Lemma sort_Sorted_on {A} (cmp : A -> A -> Q) (D : A -> Prop) (l : list A) :
  (forall a b, D a -> D b -> ~ notAfter cmp a b -> notAfter cmp b a) ->
  Forall D l -> Sorted (notAfter cmp) (sort cmp l).
Proof.
  intros Hflip Hl. induction l as [|x l IH]; simpl; [constructor|].
  apply Forall_cons in Hl as [Hx Hl].
  apply (insert_sorted_Sorted_on cmp D); auto.
  eapply Permutation_Forall; [apply sort_perm | exact Hl].
Qed.

(** X16: [compareModels] of the impact calculator never fails and returns every
    input model once, paired with its impact, in ascending order of sizeMB:
    since the score grows with the size, ordering by score and then size is
    ordering by size. *)
Theorem compareModels_sorted_by_size (ms : list Model) :
  exists pairs,
    Impact.compareModels ms = Some pairs
    /\ Permutation ms (map fst pairs)
    /\ Forall (fun p => Impact.calculateImpact (fst p) = Some (snd p)) pairs
    /\ StronglySorted (fun a b => (sizeMB a <= sizeMB b)%Q) (map fst pairs).
Proof.
  unfold Impact.compareModels.
  destruct (mapM _ ms) as [pairs|] eqn:E.
  - apply mapM_Some in E.
    assert (map fst pairs = ms
            /\ Forall (fun p => Impact.calculateImpact (fst p) = Some (snd p))
                      pairs) as [Hfst Hpaired].
    { induction E as [|m p ms pairs Hmp E IH]; [split; constructor|].
      destruct IH as [IH1 IH2].
      destruct (Impact.calculateImpact m) as [r|] eqn:Hm; [|discriminate].
      injection Hmp as <-. simpl. split; [now rewrite IH1|].
      constructor; [exact Hm | exact IH2]. }
    exists (sort Impact.compareImpact pairs). split; [reflexivity|].
    assert (Forall
              (fun p => Impact.calculateImpact (fst p) = Some (snd p))
              (sort Impact.compareImpact pairs)) as Hsorted_paired.
    { eapply Permutation_Forall; [apply sort_perm | exact Hpaired]. }
    split; [|split; [exact Hsorted_paired|]].
    + rewrite <- Hfst at 1. apply Permutation_map, sort_perm.
    + apply Sorted_paired_sizes; [exact Hsorted_paired|].
      apply (sort_Sorted_on _
               (fun p => Impact.calculateImpact (fst p) = Some (snd p)));
        [|exact Hpaired].
      intros a b Ha Hb. now apply compareImpact_paired.
  - exfalso. apply mapM_None in E. apply Exists_exists in E as (m & _ & Hm).
    destruct (calculateImpact_score m) as (r & Hr & _).
    rewrite Hr in Hm. discriminate Hm.
Qed.

Lemma determineDeploymentOptions_cases (s : Q) (frameworks : list string) :
  let o := Aggregator.determineDeploymentOptions s frameworks in
  let rt := Aggregator.hasBrowserRuntime frameworks in
  (rt = true /\ (s <= 100)%Q
   /\ o = ["browser"; "mobile"; "edge"; "cloud"; "server"]%string)
  \/ (rt = true /\ (100 < s)%Q /\ (s <= 500)%Q
      /\ o = ["browser"; "edge"; "cloud"; "server"]%string)
  \/ (rt = false /\ (s <= 500)%Q /\ o = ["edge"; "cloud"; "server"]%string)
  \/ ((500 < s)%Q /\ (s <= 4000)%Q /\ o = ["cloud"; "server"]%string)
  \/ ((4000 < s)%Q /\ o = ["server"]%string).
Proof.
  cbn zeta.
  unfold Aggregator.determineDeploymentOptions, Aggregator.hasBrowserRuntime.
  cbn zeta.
  destruct (some _ frameworks); size_cases s; cbn; tauto.
Qed.

Lemma options_membership (s : Q) (frameworks : list string) :
  let o := Aggregator.determineDeploymentOptions s frameworks in
  In "server"%string o
  /\ (In "mobile"%string o -> In "browser"%string o)
  /\ (In "browser"%string o
      <-> Aggregator.hasBrowserRuntime frameworks = true /\ (s <= 500)%Q)
  /\ (In "edge"%string o <-> (s <= 500)%Q).
Proof.
  cbn zeta.
  destruct (determineDeploymentOptions_cases s frameworks)
    as [H|[H|[H|[H|H]]]]; cbn zeta in H; destruct_and!;
    match goal with H : Aggregator.determineDeploymentOptions _ _ = _ |- _ =>
      rewrite H end;
    simpl; repeat split; intros; destruct_or?; destruct_and?;
    try discriminate; try tauto; try lra; try congruence.
Qed.

(** X13: [determineDeploymentOptions] never returns an empty or repeating list:
    server is always among the options, and the options are nested: mobile
    implies browser, browser implies edge, edge implies cloud.  Browser is
    offered exactly when a browser runtime is present and the size is at most
    500 MB, edge exactly when the size is at most 500 MB. *)
Theorem determineDeploymentOptions_nested (s : Q) (frameworks : list string) :
  let o := Aggregator.determineDeploymentOptions s frameworks in
  In "server"%string o /\ NoDup o
  /\ (In "mobile"%string o -> In "browser"%string o)
  /\ (In "browser"%string o -> In "edge"%string o)
  /\ (In "edge"%string o -> In "cloud"%string o)
  /\ (In "browser"%string o
      <-> Aggregator.hasBrowserRuntime frameworks = true /\ (s <= 500)%Q)
  /\ (In "edge"%string o <-> (s <= 500)%Q).
Proof.
  cbn zeta.
  destruct (determineDeploymentOptions_cases s frameworks)
    as [H|[H|[H|[H|H]]]]; cbn zeta in H; destruct_and!;
    match goal with H : Aggregator.determineDeploymentOptions _ _ = _ |- _ =>
      rewrite H end;
    (split; [simpl; tauto|]);
    (split; [apply (bool_decide_unpack _); vm_compute; exact I|]);
    simpl; repeat split; intros; destruct_or?; destruct_and?;
    try discriminate; try tauto; try lra; try congruence.
Qed.

Lemma determineDeploymentOptions_nested_witness :
  In "browser"%string (Aggregator.determineDeploymentOptions 23 ["ONNX"])
  /\ In "edge"%string (Aggregator.determineDeploymentOptions 23 ["ONNX"]).
Proof.
  destruct (determineDeploymentOptions_nested 23 ["ONNX"%string])
    as (_ & _ & _ & Hedge & _ & Hbrowser & _).
  assert (In "browser"%string
             (Aggregator.determineDeploymentOptions 23 ["ONNX"%string])) as Hb.
  { apply Hbrowser. split; [reflexivity|]. vm_compute. discriminate. }
  split; [exact Hb | exact (Hedge Hb)].
Defined.

Lemma filterByDeployment_In (models : list Model) (target : string)
    (m : Model) :
  noTarget (Some target) = false ->
  In m (filtered (filterByDeployment models (Some target)))
  <-> In m models
      /\ intersects (orElse (targetMatches target) [target]) m.
Proof.
  intros H. apply keepsExactly_In. now apply filterByDeployment_keeps.
Qed.

(** X14: A model that carries the options [determineDeploymentOptions] computed
    for its size is never hidden by target cloud; target edge keeps it
    exactly when its size is at most 500 MB, and target browser exactly when
    in addition a browser runtime was detected. *)
Theorem built_options_under_filters (models : list Model) (m : Model)
    (frameworks : list string) :
  In m models ->
  deploymentOptions m
    = Some (Aggregator.determineDeploymentOptions (sizeMB m) frameworks) ->
  In m (filtered (filterByDeployment models (Some "cloud"%string)))
  /\ (In m (filtered (filterByDeployment models (Some "edge"%string)))
      <-> (sizeMB m <= 500)%Q)
  /\ (In m (filtered (filterByDeployment models (Some "browser"%string)))
      <-> Aggregator.hasBrowserRuntime frameworks = true
          /\ (sizeMB m <= 500)%Q).
Proof.
  intros Hin Hopts.
  destruct (options_membership (sizeMB m) frameworks)
    as (Hserver & Hmobile & Hb & He).
  cbn zeta in *.
  assert (In "browser"%string
             (Aggregator.determineDeploymentOptions (sizeMB m) frameworks) ->
          In "edge"%string
             (Aggregator.determineDeploymentOptions (sizeMB m) frameworks))
    as Hbrowser by (rewrite Hb, He; tauto).
  rewrite !filterByDeployment_In by reflexivity.
  unfold intersects. rewrite Hopts. simpl orElse.
  split; [|split].
  - split; [exact Hin|]. exists "server"%string. simpl. tauto.
  - rewrite <- He. split.
    + intros [_ (opt & Ho & [<-|[<-|[<-|[]]]])]; auto.
    + intros Hedge. split; [exact Hin|]. exists "edge"%string. simpl. tauto.
  - rewrite <- Hb. split.
    + intros [_ (opt & Ho & [<-|[]])]. exact Ho.
    + intros Hbr. split; [exact Hin|]. exists "browser"%string. simpl. tauto.
Qed.

Lemma built_options_under_filters_witness :
  let m := Fixture.catalogModel "mini" 23 None
             (Some (Aggregator.determineDeploymentOptions 23 ["ONNX"])) in
  In m (filtered (filterByDeployment [m] (Some "browser"%string))).
Proof.
  cbn zeta.
  apply (built_options_under_filters _ _ ["ONNX"%string]);
    [simpl; auto | reflexivity |].
  split; [reflexivity|]. vm_compute. discriminate.
Defined.

(** ** Deduplication and merging in the catalog builder *)

Section Dedup.
Import Aggregator.

Local Abbreviation otherKey k :=
  (fun y : Entry => negb (String.eqb (huggingFaceId y) k)).

Lemma filter_comm {A} (p q : A -> bool) (l : list A) :
  List.filter p (List.filter q l) = List.filter q (List.filter p l).
Proof.
  induction l as [|x l IH]; simpl; [reflexivity|].
  destruct (p x) eqn:Hp, (q x) eqn:Hq; simpl;
    rewrite ?Hp, ?Hq, ?IH; reflexivity.
Qed.

Lemma filter_idem {A} (p : A -> bool) (l : list A) :
  List.filter p (List.filter p l) = List.filter p l.
Proof.
  induction l as [|x l IH]; simpl; [reflexivity|].
  destruct (p x) eqn:Hp; simpl; rewrite ?Hp, ?IH; reflexivity.
Qed.

Lemma filter_all {A} (p : A -> bool) (l : list A) :
  (forall x, In x l -> p x = true) -> List.filter p l = l.
Proof.
  induction l as [|x l IH]; simpl; intros H; [reflexivity|].
  rewrite (H x) by auto. f_equal. apply IH. auto.
Qed.

Lemma firstOccurrences_filter (k : string) (l : list Entry) :
  firstOccurrences (List.filter (otherKey k) l)
  = List.filter (otherKey k) (firstOccurrences l).
Proof.
  induction l as [|x l IH]; simpl; [reflexivity|].
  destruct (String.eqb (huggingFaceId x) k) eqn:E; simpl.
  - apply String.eqb_eq in E. subst k.
    rewrite IH. now rewrite filter_idem.
  - rewrite IH. f_equal. apply filter_comm.
Qed.

Lemma filter_unseen_insert (seen : gmap string Entry) (x : Entry)
    (l : list Entry) :
  List.filter
    (fun y => bool_decide
                (<[huggingFaceId x := x]> seen !! huggingFaceId y = None)) l
  = List.filter (otherKey (huggingFaceId x))
      (List.filter
         (fun y => bool_decide (seen !! huggingFaceId y = None)) l).
Proof.
  induction l as [|y l IHl]; simpl; [reflexivity|].
  destruct (String.eqb (huggingFaceId y) (huggingFaceId x)) eqn:E.
  - pose proof E as E'. apply String.eqb_eq in E'.
    rewrite E', lookup_insert_eq.
    rewrite bool_decide_eq_false_2 by discriminate.
    destruct (bool_decide (seen !! huggingFaceId x = None)); simpl;
      rewrite ?E; simpl; exact IHl.
  - pose proof E as E'. apply String.eqb_neq in E'.
    rewrite lookup_insert_ne by congruence.
    destruct (bool_decide (seen !! huggingFaceId y = None)); simpl;
      rewrite ?E; simpl; rewrite IHl; reflexivity.
Qed.

Lemma dedup_fold (l : list Entry) :
  forall seen result,
    snd (fold_left dedupStep l (seen, result))
    = result
      ++ firstOccurrences
           (List.filter
              (fun y => bool_decide (seen !! huggingFaceId y = None)) l).
Proof.
  induction l as [|x l IH]; intros seen result; simpl.
  - now rewrite app_nil_r.
  - destruct (seen !! huggingFaceId x) as [existing|] eqn:Hx.
    + rewrite bool_decide_eq_false_2 by congruence.
      destruct (isSet (specialization existing)
                && negb (isSet (specialization x))); apply IH.
    + rewrite bool_decide_eq_true_2 by reflexivity.
      rewrite IH. simpl. rewrite <- app_assoc. simpl. do 2 f_equal.
      rewrite <- firstOccurrences_filter. f_equal.
      apply filter_unseen_insert.
Qed.

Lemma deduplicateModels_firstOccurrences (l : list Entry) :
  deduplicateModels l = firstOccurrences l.
Proof.
  unfold deduplicateModels. rewrite dedup_fold. simpl. f_equal.
  apply filter_all. intros x _. rewrite lookup_empty.
  now apply bool_decide_eq_true_2.
Qed.

Lemma firstOccurrences_In (l : list Entry) (r : Entry) :
  In r (firstOccurrences l) -> In r l.
Proof.
  revert r. induction l as [|x l IH]; simpl; intros r; [tauto|].
  intros [<-|[Hr _]%filter_In]; auto.
Qed.

Lemma firstOccurrences_sublist (l : list Entry) :
  sublist (firstOccurrences l) l.
Proof.
  induction l as [|x l IH]; simpl; [constructor|].
  constructor. etransitivity; [|exact IH].
  clear. induction (firstOccurrences l) as [|y k IHk]; simpl; [constructor|].
  destruct (negb _); now constructor.
Qed.

Lemma firstOccurrences_NoDup (l : list Entry) :
  NoDup (map huggingFaceId (firstOccurrences l)).
Proof.
  induction l as [|x l IH]; simpl; [constructor|].
  apply NoDup_cons_2.
  - intros Hin. apply list_elem_of_In, in_map_iff in Hin as (y & Hy & Hin).
    apply filter_In in Hin as [_ Hne].
    rewrite Hy, String.eqb_refl in Hne. discriminate Hne.
  - eapply sublist_NoDup; [exact IH|].
    apply (fmap_sublist huggingFaceId).
    clear. induction (firstOccurrences l) as [|y k IHk]; simpl; [constructor|].
    destruct (negb _); now constructor.
Qed.

Lemma firstOccurrences_find (l : list Entry) (r : Entry) :
  In r (firstOccurrences l) ->
  List.find (fun y => String.eqb (huggingFaceId y) (huggingFaceId r)) l
  = Some r.
Proof.
  induction l as [|x l IH]; simpl; [tauto|].
  intros [<-|[Hr Hne]%filter_In].
  - now rewrite String.eqb_refl.
  - apply negb_true_iff in Hne. rewrite String.eqb_sym in Hne.
    rewrite Hne. now apply IH.
Qed.

Lemma firstOccurrences_covers (l : list Entry) (m : Entry) :
  In m l ->
  exists r, In r (firstOccurrences l) /\ huggingFaceId r = huggingFaceId m.
Proof.
  induction l as [|x l IH]; simpl; [tauto|].
  intros [<-|Hm]; [exists x; auto|].
  destruct (IH Hm) as (r & Hr & Heq).
  destruct (String.eqb (huggingFaceId r) (huggingFaceId x)) eqn:E.
  - apply String.eqb_eq in E. exists x. split; [auto | congruence].
  - exists r. split; [|exact Heq]. right. apply filter_In.
    split; [exact Hr|]. now rewrite E.
Qed.

Lemma firstOccurrences_NoDup_id (l : list Entry) :
  NoDup (map huggingFaceId l) -> firstOccurrences l = l.
Proof.
  induction l as [|x l IH]; simpl; intros Hnd; [reflexivity|].
  apply NoDup_cons in Hnd as [Hx Hnd].
  rewrite IH by assumption. f_equal. apply filter_all.
  intros y Hy. apply negb_true_iff, String.eqb_neq. intros Heq.
  apply Hx, list_elem_of_In, in_map_iff. eauto.
Qed.

Lemma freshIn_cons (x : Entry) (l : list Entry) (m : Entry) :
  freshIn (x :: l) m
  = negb (String.eqb (huggingFaceId m) (huggingFaceId x)) && freshIn l m.
Proof.
  unfold freshIn. simpl. rewrite negb_orb.
  now rewrite (String.eqb_sym (huggingFaceId x)).
Qed.

Lemma firstOccurrences_app (l1 l2 : list Entry) :
  firstOccurrences (l1 ++ l2)
  = firstOccurrences l1 ++ firstOccurrences (List.filter (freshIn l1) l2).
Proof.
  revert l2. induction l1 as [|x l1 IH]; intros l2; simpl.
  - f_equal. symmetry. now apply filter_all.
  - f_equal. rewrite IH, List.filter_app. f_equal.
    rewrite <- firstOccurrences_filter. f_equal.
    induction l2 as [|y l2 IH2]; simpl; [reflexivity|].
    rewrite freshIn_cons.
    destruct (freshIn l1 y); simpl;
      destruct (negb (String.eqb (huggingFaceId y) (huggingFaceId x)));
      simpl; rewrite ?IH2; reflexivity.
Qed.

Lemma preserveCuratedFields_key (m : Entry) (existing : list Entry) :
  huggingFaceId (preserveCuratedFields m existing) = huggingFaceId m.
Proof.
  unfold preserveCuratedFields.
  destruct (List.find _ existing) as [e|]; [|reflexivity].
  destruct (isSet (specialization e) && negb (isSet (specialization m)));
    reflexivity.
Qed.

Lemma preserveCuratedFields_fresh (m : Entry) (existing : list Entry) :
  freshIn existing m = true -> preserveCuratedFields m existing = m.
Proof.
  unfold freshIn, preserveCuratedFields. intros H.
  apply negb_true_iff in H.
  destruct (List.find _ existing) as [e|] eqn:E; [|reflexivity].
  apply find_some in E as [He Hk].
  assert (existsb
            (fun y => String.eqb (huggingFaceId y) (huggingFaceId m))
            existing = true) as Hex
    by (apply existsb_exists; eauto).
  congruence.
Qed.
End Dedup.

(** X17: [deduplicateModels] keeps, in order, the first entry of every
    huggingFaceId and nothing else: the keys of the result are distinct, the
    result is a sub-list of the input, every key of the input is still
    present, each kept entry is the first of the input with its key, and
    deduplicating again changes nothing. *)
Theorem deduplicateModels_keeps_first (l : list Aggregator.Entry) :
  let out := Aggregator.deduplicateModels l in
  NoDup (map Aggregator.huggingFaceId out)
  /\ sublist out l
  /\ (forall m, In m l ->
        exists r, In r out
                  /\ Aggregator.huggingFaceId r = Aggregator.huggingFaceId m)
  /\ (forall r, In r out ->
        List.find (fun y => String.eqb (Aggregator.huggingFaceId y)
                                       (Aggregator.huggingFaceId r)) l
        = Some r)
  /\ Aggregator.deduplicateModels out = out.
Proof.
  cbn zeta. rewrite !deduplicateModels_firstOccurrences.
  split; [apply firstOccurrences_NoDup|].
  split; [apply firstOccurrences_sublist|].
  split; [apply firstOccurrences_covers|].
  split; [apply firstOccurrences_find|].
  apply firstOccurrences_NoDup_id, firstOccurrences_NoDup.
Qed.

(** X18: In the per-tier merge the existing entries come first and win: the
    merged list is the deduplicated existing entries followed by the
    deduplicated fetched entries whose key is new.  A fetched entry whose key
    already exists is dropped, with or without the curated field copied
    onto it. *)
Theorem mergeTier_existing_first (existing fetched : list Aggregator.Entry) :
  Aggregator.mergeTier existing fetched
  = Aggregator.deduplicateModels existing
    ++ Aggregator.deduplicateModels
         (List.filter (Aggregator.freshIn existing) fetched).
Proof.
  unfold Aggregator.mergeTier.
  rewrite !deduplicateModels_firstOccurrences, firstOccurrences_app.
  do 2 f_equal.
  induction fetched as [|m fetched IH]; simpl; [reflexivity|].
  assert (Aggregator.freshIn existing
            (Aggregator.preserveCuratedFields m existing)
          = Aggregator.freshIn existing m) as Hkey.
  { unfold Aggregator.freshIn. now rewrite preserveCuratedFields_key. }
  rewrite Hkey. destruct (Aggregator.freshIn existing m) eqn:Hfresh.
  - rewrite preserveCuratedFields_fresh by assumption. now rewrite IH.
  - exact IH.
Qed.

(** ** How the filters compose *)

Lemma filterByAccuracy_as_filter (threshold : Q) :
  exists p : Model -> bool,
    forall ms, filtered (filterByAccuracy ms threshold) = List.filter p ms.
Proof.
  unfold filterByAccuracy. destruct (Qeq_bool threshold 0).
  - exists (fun _ => true). intros ms. simpl. symmetry.
    now apply filter_all.
  - eexists. intros ms. reflexivity.
Qed.

Lemma filterByDeployment_as_filter (target : option string) :
  exists p : Model -> bool,
    forall ms, filtered (filterByDeployment ms target) = List.filter p ms.
Proof.
  unfold filterByDeployment.
  destruct target as [d|]; [destruct (String.eqb d "")|].
  - exists (fun _ => true). intros ms. simpl. symmetry. now apply filter_all.
  - eexists. intros ms. reflexivity.
  - exists (fun _ => true). intros ms. simpl. symmetry. now apply filter_all.
Qed.

Lemma filter_is_sublist {A} (p : A -> bool) (l : list A) :
  sublist (List.filter p l) l.
Proof.
  induction l as [|x l IH]; simpl; [constructor|].
  destruct (p x); now constructor.
Qed.

(** X7: For every target that names no member inherited from
    [Object.prototype], the two filters commute: filtering by deployment
    first and by accuracy second keeps the same list as the order the
    grouping uses, and hides the same number of models in total; and
    applying a filter to its own output hides nothing more. *)
Theorem filters_commute (ms : list Model) (threshold : Q)
    (target : option string) :
  plainTarget target = true ->
  let a := filterByAccuracy ms threshold in
  let ad := filterByDeployment (filtered a) target in
  let d := filterByDeployment ms target in
  let da := filterByAccuracy (filtered d) threshold in
  filtered ad = filtered da
  /\ hidden a + hidden ad = hidden d + hidden da
  /\ filtered (filterByAccuracy (filtered a) threshold) = filtered a
  /\ filtered (filterByDeployment (filtered d) target) = filtered d.
Proof.
  intros _. cbn zeta.
  destruct (filterByAccuracy_as_filter threshold) as [p Hp].
  destruct (filterByDeployment_as_filter target) as [q Hq].
  assert (filtered (filterByDeployment
                      (filtered (filterByAccuracy ms threshold)) target)
          = filtered (filterByAccuracy
                        (filtered (filterByDeployment ms target)) threshold))
    as Heq by (rewrite !Hp, !Hq; apply filter_comm).
  split; [exact Heq|]. split.
  - rewrite !filterByAccuracy_hidden, !filterByDeployment_hidden, Heq. lia.
  - rewrite !Hp, !Hq. split; apply filter_idem.
Qed.

Lemma filters_commute_witness :
  filtered (filterByDeployment
              (filtered (filterByAccuracy
                           [Fixture.standardBrowser; Fixture.browserModel;
                            Fixture.bare] 85))
              (Some "browser"%string))
  = filtered (filterByAccuracy
                (filtered (filterByDeployment
                             [Fixture.standardBrowser; Fixture.browserModel;
                              Fixture.bare] (Some "browser"%string)))
                85)
  /\ filtered (filterByAccuracy
                (filtered (filterByDeployment
                             [Fixture.standardBrowser; Fixture.browserModel;
                              Fixture.bare] (Some "browser"%string)))
                85)
     = [Fixture.standardBrowser].
Proof.
  destruct (filters_commute
              [Fixture.standardBrowser; Fixture.browserModel; Fixture.bare]
              85 (Some "browser"%string) eq_refl) as (Hsame & _).
  split; [exact Hsame | reflexivity].
Defined.

(** X8: Raising the accuracy threshold never brings a model back: for
    0 <= t1 <= t2 the list kept at t2 is a sub-list of the list kept at
    t1. *)
Theorem filterByAccuracy_monotone (ms : list Model) (t1 t2 : Q) :
  (0 <= t1)%Q -> (t1 <= t2)%Q ->
  sublist (filtered (filterByAccuracy ms t2))
          (filtered (filterByAccuracy ms t1)).
Proof.
  intros H0 H12. unfold filterByAccuracy.
  destruct (Qeq_bool t1 0) eqn:E1.
  - destruct (Qeq_bool t2 0); simpl; [reflexivity|].
    apply filter_is_sublist.
  - destruct (Qeq_bool t2 0) eqn:E2.
    + apply Qeq_bool_iff in E2.
      assert (t1 == 0)%Q as H by lra.
      apply Qeq_bool_iff in H. congruence.
    + simpl. apply filter_sublist_weaken. intros m Hm.
      apply Qle_bool_iff in Hm. apply Qle_bool_iff.
      assert (t1 / 100 <= t2 / 100)%Q; [|lra].
      unfold Qdiv. apply Qmult_le_compat_r; [exact H12|].
      vm_compute. discriminate.
Qed.

Lemma filterByAccuracy_monotone_witness :
  sublist
    (filtered (filterByAccuracy
                 [Fixture.browserModel; Fixture.standardBrowser] 85))
    (filtered (filterByAccuracy
                 [Fixture.browserModel; Fixture.standardBrowser] 70)).
Proof.
  apply filterByAccuracy_monotone; vm_compute; discriminate.
Defined.

(** X9: The deployment targets widen step by step: what browser keeps, edge
    keeps; what edge keeps, cloud keeps; and every target that names no
    member inherited from [Object.prototype] keeps a sub-list of the
    input. *)
Theorem deployment_targets_widen (ms : list Model) (target : option string) :
  sublist (filtered (filterByDeployment ms (Some "browser"%string)))
          (filtered (filterByDeployment ms (Some "edge"%string)))
  /\ sublist (filtered (filterByDeployment ms (Some "edge"%string)))
             (filtered (filterByDeployment ms (Some "cloud"%string)))
  /\ (plainTarget target = true ->
      sublist (filtered (filterByDeployment ms target)) ms).
Proof.
  split; [|split].
  - rewrite !filterByDeployment_target by reflexivity. simpl.
    apply filter_sublist_weaken. intros m Hb.
    apply deployKeeps_intersects in Hb. apply deployKeeps_intersects.
    destruct Hb as (opt & Hopt & Hallowed). exists opt. split; [exact Hopt|].
    simpl in *. tauto.
  - rewrite !filterByDeployment_target by reflexivity. simpl.
    apply filter_sublist_weaken. intros m Hb.
    apply deployKeeps_intersects in Hb. apply deployKeeps_intersects.
    destruct Hb as (opt & Hopt & Hallowed). exists opt. split; [exact Hopt|].
    simpl in *. tauto.
  - intros _. destruct (filterByDeployment_as_filter target) as [q Hq].
    rewrite Hq. apply filter_is_sublist.
Qed.

Lemma deployment_targets_widen_witness :
  sublist (filtered (filterByDeployment
                       [Fixture.standardBrowser; Fixture.browserModel]
                       (Some "mobile"%string)))
          [Fixture.standardBrowser; Fixture.browserModel]
  /\ filtered (filterByDeployment
                 [Fixture.standardBrowser; Fixture.browserModel]
                 (Some "mobile"%string))
     = [Fixture.browserModel].
Proof.
  destruct (deployment_targets_widen
              [Fixture.standardBrowser; Fixture.browserModel]
              (Some "mobile"%string)) as (_ & _ & Hsub).
  split; [apply Hsub|]; reflexivity.
Defined.

(** ** Ranking and filtering *)

Section SortFilter.
Context {A : Type} (cmp : A -> A -> Q) (D : A -> Prop).
Hypothesis trans_on :
  forall a b c, D a -> D b -> D c ->
    notAfter cmp a b -> notAfter cmp b c -> notAfter cmp a c.
Hypothesis flip_on :
  forall a b, D a -> D b -> ~ notAfter cmp a b -> notAfter cmp b a.

Lemma Sorted_head_all (l : list A) :
  forall x, D x -> Forall D l -> Sorted (notAfter cmp) (x :: l) ->
            Forall (notAfter cmp x) l.
Proof.
  induction l as [|y l IH]; intros x Hx Hl Hs; [constructor|].
  apply Forall_cons in Hl as [Hy Hl].
  apply Sorted_inv in Hs as [Hs Hhd]. apply HdRel_inv in Hhd.
  constructor; [exact Hhd|].
  specialize (IH y Hy Hl Hs).
  rewrite List.Forall_forall in *. intros z Hz.
  apply (trans_on x y z); auto.
Qed.

Lemma Forall_HdRel (R : A -> A -> Prop) (x : A) (l : list A) :
  Forall (R x) l -> HdRel R x l.
Proof. intros [|y l' Hy _]; now constructor. Qed.

Lemma insert_sorted_filter (keep : A -> bool) (x : A) (s : list A) :
  D x -> Forall D s -> Sorted (notAfter cmp) s -> keep x = true ->
  List.filter keep (insert_sorted cmp x s)
  = insert_sorted cmp x (List.filter keep s).
Proof.
  intros Hx Hs Hsorted Hkeep.
  induction s as [|y s IH]; simpl; [now rewrite Hkeep|].
  pose proof (Forall_inv Hs) as Hy.
  pose proof (Forall_inv_tail Hs) as Hs'.
  pose proof (Sorted_head_all s y Hy Hs' Hsorted) as Hall.
  apply Sorted_inv in Hsorted as [Hsorted _].
  destruct (Qle_bool (cmp x y) 0) eqn:Hxy; simpl; rewrite ?Hkeep.
  - destruct (keep y) eqn:Hky; simpl; [now rewrite Hxy|].
    symmetry. apply insert_sorted_head, Forall_HdRel.
    apply Qle_bool_iff in Hxy.
    rewrite List.Forall_forall in *. intros z [Hz _]%filter_In.
    apply (trans_on x y z); auto.
  - destruct (keep y) eqn:Hky; simpl; rewrite ?Hxy, IH; auto.
Qed.

Lemma sort_filter (keep : A -> bool) (l : list A) :
  Forall D l ->
  List.filter keep (sort cmp l) = sort cmp (List.filter keep l).
Proof.
  induction l as [|x l IH]; intros Hl; simpl; [reflexivity|].
  apply Forall_cons in Hl as [Hx Hl].
  destruct (keep x) eqn:Hk; simpl.
  - rewrite insert_sorted_filter; auto.
    + now rewrite IH.
    + eapply Permutation_Forall; [apply sort_perm | exact Hl].
    + now apply (sort_Sorted_on cmp D).
  - rewrite insert_sorted_filter_out by assumption. now apply IH.
Qed.
End SortFilter.

Lemma rank_filter_untagged (keep : Model -> bool) (ms : list Model) :
  Forall (fun m => tierPriority m = None) ms ->
  List.filter keep (rankBySize ms) = rankBySize (List.filter keep ms).
Proof.
  apply sort_filter.
  - intros a b c Ha Hb Hc. unfold notAfter.
    rewrite !compareModels_untagged by auto. intros; lra.
  - intros a b _ _. apply compareModels_flip.
Qed.

Lemma rank_filter_tagged (keep : Model -> bool) (ms : list Model) :
  Forall (fun m => tierPriority m <> None) ms ->
  List.filter keep (rankBySize ms) = rankBySize (List.filter keep ms).
Proof.
  apply sort_filter.
  - intros a b c Ha Hb Hc.
    destruct (tierPriority a) as [p|] eqn:Ea; [|congruence].
    destruct (tierPriority b) as [q|] eqn:Eb; [|congruence].
    destruct (tierPriority c) as [r|] eqn:Ec; [|congruence].
    rewrite (compareModels_tagged a b p q), (compareModels_tagged b c q r),
      (compareModels_tagged a c p r) by assumption.
    intros [H1|[-> H1]] [H2|[-> H2]]; try (left; lia).
    right. split; [reflexivity | lra].
  - intros a b _ _. apply compareModels_flip.
Qed.

(** X10: Ranking commutes with filtering on a list whose models all carry a
    tier priority, or all carry none, for every target that names no member
    inherited from [Object.prototype]: filtering and then ranking (as the
    grouping does) gives the ranked list with the filtered-out models
    removed. *)
Theorem rank_commutes_with_filters (ms : list Model) (threshold : Q)
    (target : option string) :
  plainTarget target = true ->
  Forall (fun m => tierPriority m = None) ms
  \/ Forall (fun m => tierPriority m <> None) ms ->
  rankBySize
    (filtered (filterByDeployment
                 (filtered (filterByAccuracy ms threshold)) target))
  = filtered (filterByDeployment
                (filtered (filterByAccuracy (rankBySize ms) threshold))
                target).
Proof.
  intros _ Huniform.
  destruct (filterByAccuracy_as_filter threshold) as [p Hp].
  destruct (filterByDeployment_as_filter target) as [q Hq].
  rewrite !Hp, !Hq.
  assert (forall keep l,
            Forall (fun m => tierPriority m = None) l
            \/ Forall (fun m => tierPriority m <> None) l ->
            List.filter keep (rankBySize l) = rankBySize (List.filter keep l))
    as Hcomm.
  { intros keep l [H|H];
      [now apply rank_filter_untagged | now apply rank_filter_tagged]. }
  rewrite (Hcomm p ms Huniform). apply eq_sym, Hcomm.
  destruct Huniform as [H|H]; [left|right];
    rewrite List.Forall_forall in *; intros m [Hm _]%filter_In; auto.
Qed.

Lemma rank_commutes_with_filters_witness :
  rankBySize
    (filtered (filterByDeployment
                 (filtered (filterByAccuracy
                              [Fixture.standardBrowser; Fixture.browserModel]
                              70))
                 (Some "browser"%string)))
  = [Fixture.browserModel; Fixture.standardBrowser].
Proof.
  rewrite rank_commutes_with_filters.
  - reflexivity.
  - reflexivity.
  - left. repeat constructor.
Defined.

Lemma StronglySorted_weaken {A} (R R' : A -> A -> Prop) (P : A -> Prop)
    (l : list A) :
  (forall a b, P a -> P b -> R a b -> R' a b) ->
  Forall P l -> StronglySorted R l -> StronglySorted R' l.
Proof.
  intros Himp Hp Hs. induction Hs as [|x l Hs IH Hall]; [constructor|].
  apply Forall_cons in Hp as [Hx Hl].
  constructor; [now apply IH|].
  rewrite List.Forall_forall in *. intros y Hy. apply Himp; auto.
Qed.

(** X11: When every model sits in the tier [determineTier] gives for its size,
    ranking by tier and then size is ranking by size: the ranked list is in
    ascending order of sizeMB throughout. *)
Theorem rank_sorts_by_size_when_tiers_match (ms : list Model) :
  Forall taggedWithTier ms ->
  Forall (fun m => tier m = Some (Aggregator.determineTier (sizeMB m))) ms ->
  StronglySorted (fun a b => (sizeMB a <= sizeMB b)%Q) (rankBySize ms).
Proof.
  intros Htag Htier.
  apply (StronglySorted_weaken tierThenSize _
           (fun m => taggedWithTier m
                     /\ tier m = Some (Aggregator.determineTier (sizeMB m)))).
  - intros a b [(na & ia & Hna & Hia & Hpa) Ha]
               [(nb & ib & Hnb & Hib & Hpb) Hb]
               (p & q & Hp & Hq & Hcase).
    destruct Hcase as [Hlt|[_ Hle]]; [|exact Hle].
    destruct (Qlt_le_dec (sizeMB b) (sizeMB a)) as [Hgt|Hle]; [|exact Hle].
    exfalso.
    destruct (tierIndex_monotone (sizeMB b) (sizeMB a))
      as (p' & q' & Hp' & Hq' & Hmono); [lra|].
    assert (nb = Aggregator.determineTier (sizeMB b)) as -> by congruence.
    assert (na = Aggregator.determineTier (sizeMB a)) as -> by congruence.
    assert (p = ia) by congruence. assert (q = ib) by congruence.
    assert (p' = ib) by congruence. assert (q' = ia) by congruence.
    lia.
  - eapply Permutation_Forall; [apply sort_perm|].
    rewrite List.Forall_forall in *. intros m Hm. split; auto.
  - now apply rankBySize_StronglySorted.
Qed.

Lemma rank_sorts_by_size_when_tiers_match_witness :
  StronglySorted (fun a b => (sizeMB a <= sizeMB b)%Q)
                 (rankBySize [Fixture.midSize; Fixture.twinA]).
Proof.
  apply rank_sorts_by_size_when_tiers_match.
  - repeat constructor; eexists _, _; repeat split; reflexivity.
  - repeat constructor.
Defined.

(** ** More on the page's routing *)

Section MoreRouting.
Import Session.
Variable taskClassifier : string -> Completion ClassifyResult.
Variable fallbackClassifier : string -> Completion ClassifyResult.

Lemma step_stays_ready (st : PageState) (e : Event) :
  usingFallback st = false -> classifierReady st = true ->
  turnsToFallback e = false ->
  exists st',
    step taskClassifier fallbackClassifier st e = Returned st'
    /\ usingFallback st' = false /\ classifierReady st' = true
    /\ exists new,
         calls st' = new ++ calls st /\ Forall toEmbedding new
         /\ length new = classifyCount [e].
Proof.
  intros Hf Hr He. destruct e as [p|initResult|taskDescription]; simpl.
  - eexists. split; [reflexivity|]. unfold onProgress.
    simpl in He. destruct (status p); try discriminate He; simpl;
      (split; [assumption|]); (split; [auto|]);
      exists []; repeat split; constructor.
  - eexists. split; [reflexivity|].
    destruct initResult as [[|]|]; try discriminate He; simpl;
      (split; [auto|]); (split; [auto|]);
      exists []; repeat split; constructor.
  - destruct (handleClassify_returns taskClassifier fallbackClassifier
                st taskDescription)
      as (st' & Hrun & Hf' & Hr' & Hcalls).
    exists st'. split; [exact Hrun|].
    split; [congruence|]. split; [congruence|].
    exists [(route st, taskDescription)]. split; [exact Hcalls|].
    split; [|reflexivity].
    constructor; [|constructor].
    unfold toEmbedding, route. simpl. now rewrite Hf, Hr.
Qed.

Lemma run_stays_ready (events : list Event) :
  forall st,
    usingFallback st = false -> classifierReady st = true ->
    (forall e, In e events -> turnsToFallback e = false) ->
    exists st',
      run taskClassifier fallbackClassifier st events = Returned st'
      /\ usingFallback st' = false /\ classifierReady st' = true
      /\ exists new,
           calls st' = new ++ calls st /\ Forall toEmbedding new
           /\ length new = classifyCount events.
Proof.
  induction events as [|e events IH]; intros st Hf Hr Hok.
  - exists st. split; [reflexivity|]. split; [exact Hf|]. split; [exact Hr|].
    exists []. repeat split; constructor.
  - destruct (step_stays_ready st e Hf Hr)
      as (st1 & Hstep & Hf1 & Hr1 & new1 & Hc1 & He1 & Hl1).
    { apply Hok. now left. }
    destruct (IH st1 Hf1 Hr1)
      as (st2 & Hrun & Hf2 & Hr2 & new2 & Hc2 & He2 & Hl2).
    { intros e' He'. apply Hok. now right. }
    exists st2. simpl. rewrite Hstep.
    split; [exact Hrun|]. split; [exact Hf2|]. split; [exact Hr2|].
    exists (new2 ++ new1). split; [|split].
    + rewrite Hc2, Hc1. now rewrite app_assoc.
    + apply Forall_app. split; assumption.
    + rewrite length_app, classifyCount_cons. lia.
Qed.

(** Once the embedding classifier is ready and until an error is reported,
    the page behaves as the page that has the embedding classifier only. *)
Lemma run_stays_ready_by (events : list Event) :
  forall st,
    usingFallback st = false -> classifierReady st = true ->
    (forall e, In e events -> turnsToFallback e = false) ->
    run taskClassifier fallbackClassifier st events
    = runBy Embedding taskClassifier st events.
Proof.
  induction events as [|e events IH]; intros st Hf Hr Hok; [reflexivity|].
  destruct (step_stays_ready st e Hf Hr) as (st1 & Hstep & Hf1 & Hr1 & _).
  { apply Hok. now left. }
  assert (step taskClassifier fallbackClassifier st e
          = match e with
            | ProgressEvent p => Returned (onProgress p st)
            | InitializeEnds initResult =>
                Returned (afterInitialize initResult st)
            | ClassifyEvent taskDescription =>
                classifyBy Embedding taskClassifier st taskDescription
            end) as Hsame.
  { destruct e as [p|initResult|taskDescription]; try reflexivity.
    apply handleClassify_embedding. unfold route. now rewrite Hf, Hr. }
  cbn [run runBy]. cbn zeta. rewrite <- Hsame, Hstep.
  apply IH; [exact Hf1 | exact Hr1 |]. intros e' He'. apply Hok. now right.
Qed.

(** The page never throws: every event is absorbed. *)
Lemma run_returns (events : list Event) :
  forall st, exists st',
    run taskClassifier fallbackClassifier st events = Returned st'.
Proof.
  induction events as [|e events IH]; intros st; simpl; [eauto|].
  destruct e as [p|initResult|taskDescription]; simpl; try apply IH.
  destruct (handleClassify_returns taskClassifier fallbackClassifier
              st taskDescription) as (st' & -> & _).
  apply IH.
Qed.
End MoreRouting.

(** X19: Once [initialize] has resolved with success, and as long as no error is
    reported afterwards, every classification call returns and is served by
    the embedding classifier, whatever happened before and whatever the
    classifiers answer: the page ends in the state of the page that has the
    embedding classifier only, each further call pre-fills the form from the
    embedding classifier's answer, and replacing the fallback classifier by
    any other changes nothing from then on. *)
Theorem embedding_after_successful_initialization
    (taskClassifier fallbackClassifier : string -> Completion ClassifyResult)
    (st0 : PageState) (before after : list Event) :
  (forall e, In e after -> Session.turnsToFallback e = false) ->
  exists st1 st2 new,
    run taskClassifier fallbackClassifier st0
        (before ++ [InitializeEnds (Returned true)]) = Returned st1
    /\ run taskClassifier fallbackClassifier st1 after = Returned st2
    /\ calls st2 = new ++ calls st1
    /\ length new = classifyCount after
    /\ Forall Session.toEmbedding new
    /\ route st2 = Embedding
    /\ Session.runBy Embedding taskClassifier st1 after = Returned st2
    /\ (forall other : string -> Completion ClassifyResult,
          run taskClassifier other st1 after = Returned st2)
    /\ (forall taskDescription,
          handleClassify taskClassifier fallbackClassifier st2 taskDescription
          = match taskClassifier taskDescription with
            | Returned result =>
                Returned (prefillFrom result
                            (logCall Embedding taskDescription st2))
            | Threw => Returned (logCall Embedding taskDescription st2)
            end).
Proof.
  intros Hok.
  destruct (run_returns taskClassifier fallbackClassifier before st0)
    as (stb & Hb).
  assert (run taskClassifier fallbackClassifier st0
              (before ++ [InitializeEnds (Returned true)])
          = Returned (afterInitialize (Returned true) stb)) as H1.
  { clear Hok. revert st0 Hb.
    induction before as [|e before IH]; intros st0 Hb; simpl in *.
    - now injection Hb as <-.
    - destruct (step taskClassifier fallbackClassifier st0 e);
        [now apply IH | discriminate]. }
  destruct (run_stays_ready taskClassifier fallbackClassifier after
              (afterInitialize (Returned true) stb))
    as (st2 & Hrun & Hf & Hr & new & Hcalls & Hemb & Hlen);
    [reflexivity | reflexivity | exact Hok |].
  assert (route st2 = Embedding) as Hroute.
  { unfold route. now rewrite Hf, Hr. }
  assert (Session.runBy Embedding taskClassifier
            (afterInitialize (Returned true) stb) after = Returned st2)
    as Hby.
  { rewrite <- Hrun. symmetry.
    apply run_stays_ready_by; [reflexivity | reflexivity | exact Hok]. }
  exists (afterInitialize (Returned true) stb), st2, new.
  split; [exact H1|]. split; [exact Hrun|]. split; [exact Hcalls|].
  split; [exact Hlen|]. split; [exact Hemb|]. split; [exact Hroute|].
  split; [exact Hby|]. split.
  - intros other. rewrite <- Hby.
    apply run_stays_ready_by; [reflexivity | reflexivity | exact Hok].
  - intros taskDescription. now apply handleClassify_embedding.
Qed.

Lemma embedding_after_successful_initialization_witness :
  exists st,
    run (fun _ => Returned Fixture.lowConfidence)
        (fun _ => Returned Fixture.keywordAnswer)
        initialState
        [ProgressEvent (mkProgress Error "Network error" 0);
         InitializeEnds (Returned true);
         ClassifyEvent "classify product images"] = Returned st
    /\ calls st = [(Embedding, "classify product images"%string)]
    /\ prefillCategory st = Some "computer_vision"%string.
Proof.
  destruct (embedding_after_successful_initialization
              (fun _ => Returned Fixture.lowConfidence)
              (fun _ => Returned Fixture.keywordAnswer)
              initialState
              [ProgressEvent (mkProgress Error "Network error" 0)]
              [ClassifyEvent "classify product images"])
    as (st1 & st2 & new & H1 & H2 & _).
  - simpl. intros e [<-|[]]. reflexivity.
  - exists st2. simpl in H1. injection H1 as <-. split; [exact H2|].
    simpl in H2. injection H2 as <-. split; reflexivity.
Defined.

(** X20: When the chosen classifier throws, or answers without a top prediction
    that carries a category, [handleClassify] returns normally and leaves
    every page variable, the pre-fill included, as it was; only the call is
    made. *)
Theorem handleClassify_failure_keeps_prefill
    (taskClassifier fallbackClassifier : string -> Completion ClassifyResult)
    (st : PageState) (taskDescription : string) :
  classifyWith taskClassifier fallbackClassifier (route st) taskDescription
    = Threw
  \/ (exists result,
        classifyWith taskClassifier fallbackClassifier (route st)
                     taskDescription = Returned result
        /\ Session.noLabel result) ->
  handleClassify taskClassifier fallbackClassifier st taskDescription
  = Returned (logCall (route st) taskDescription st).
Proof.
  unfold handleClassify.
  intros [->|(result & -> & Hno)]; [reflexivity|].
  unfold prefillFrom, Session.noLabel in *.
  destruct (topPrediction result) as [top|]; [|reflexivity].
  now rewrite Hno.
Qed.

Lemma handleClassify_failure_keeps_prefill_witness :
  handleClassify (fun _ => Threw) (fun _ => Threw) initialState
                 "classify product images"
  = Returned (logCall Fallback "classify product images" initialState).
Proof.
  rewrite handleClassify_failure_keeps_prefill; [reflexivity|].
  left. reflexivity.
Defined.

(** ** From the form to the recommendations *)

(** X21: The form dispatches nothing unless a category and a subcategory are
    chosen.  What it dispatches never carries an empty string: the
    "Any environment" entry reaches the page as [null], so the target the
    selector receives is either absent or a target that really filters. *)
Theorem form_never_sends_empty_target (trim : string -> string)
    (form : Form.FormState) :
  (Form.handleSubmit trim form = None
   <-> Form.selectedCategory form = ""%string
       \/ Form.selectedSubcategory form = ""%string)
  /\ forall detail,
       Form.handleSubmit trim form = Some detail ->
       Form.category detail <> ""%string
       /\ Form.subcategory detail <> ""%string
       /\ Form.deploymentTarget detail <> Some ""%string
       /\ Form.description detail <> Some ""%string
       /\ (Form.deploymentTarget detail = None
           <-> Form.selectedDeployment form = ""%string)
       /\ (noTarget (Form.deploymentTarget detail) = true
           <-> Form.deploymentTarget detail = None).
Proof.
  unfold Form.handleSubmit.
  destruct (String.eqb (Form.selectedCategory form) "") eqn:Ec;
    destruct (String.eqb (Form.selectedSubcategory form) "") eqn:Es; simpl.
  1-3: split; [split; [intros _|reflexivity] | discriminate];
       try apply String.eqb_eq in Ec; try apply String.eqb_eq in Es; auto.
  apply String.eqb_neq in Ec, Es.
  split; [split; [discriminate | tauto]|].
  intros detail [= <-]. simpl. unfold Form.orNull.
  split; [exact Ec|]. split; [exact Es|].
  split; [|split; [|split]].
  - destruct (String.eqb (Form.selectedDeployment form) "") eqn:Ed;
      [discriminate|].
    apply String.eqb_neq in Ed. congruence.
  - destruct (String.eqb (trim (Form.taskDescription form)) "") eqn:Et;
      [discriminate|].
    apply String.eqb_neq in Et. congruence.
  - destruct (String.eqb (Form.selectedDeployment form) "") eqn:Ed.
    + apply String.eqb_eq in Ed. tauto.
    + apply String.eqb_neq in Ed. split; [discriminate | contradiction].
  - destruct (String.eqb (Form.selectedDeployment form) "") eqn:Ed; simpl.
    + tauto.
    + rewrite Ed. split; discriminate.
Qed.

Lemma form_never_sends_empty_target_witness :
  Form.deploymentTarget
    <$> Form.handleSubmit (fun s => s)
          {| Form.selectedCategory := "computer_vision";
             Form.selectedSubcategory := "image_classification";
             Form.selectedDeployment := "";
             Form.taskDescription := "" |}
  = Some None.
Proof.
  destruct (Form.handleSubmit (fun s => s)
              {| Form.selectedCategory := "computer_vision";
                 Form.selectedSubcategory := "image_classification";
                 Form.selectedDeployment := "";
                 Form.taskDescription := "" |}) as [detail|] eqn:E;
    [|discriminate E].
  destruct (proj2 (form_never_sends_empty_target (fun s => s) _) detail E)
    as (_ & _ & _ & _ & Hnone & _).
  simpl. f_equal. apply Hnone. reflexivity.
Defined.

Lemma modelsOf_grouped (modelsData : Catalog) (detail : Form.SubmitDetail)
    (tier : string) :
  In tier TIERS ->
  Form.modelsOf
    (getTaskModelsGroupedByTier modelsData (Form.category detail)
       (Form.subcategory detail) 0 (Form.deploymentTarget detail)) tier
  = rankBySize
      (filtered
         (filterByDeployment
            (tierInput modelsData (Form.category detail)
                       (Form.subcategory detail) tier)
            (Form.deploymentTarget detail))).
Proof.
  intros Hin. unfold Form.modelsOf. rewrite grouped_lookup by assumption.
  reflexivity.
Qed.

Lemma length_of_zero_nil {A} (l : list A) :
  (length_of l =? 0) = true -> l = [].
Proof.
  destruct l; [reflexivity|]. unfold length_of.
  intros H. apply Z.eqb_eq in H. simpl length in H. lia.
Qed.

Lemma handleFormSubmit_recommendations (modelsData : Catalog)
    (detail : Form.SubmitDetail) :
  Form.recommendations (Form.handleFormSubmit modelsData None detail)
  = Form.recommendedFor modelsData detail.
Proof.
  unfold Form.handleFormSubmit. cbn [Form.recommendations].
  rewrite !modelsOf_grouped by (unfold TIERS; simpl; tauto).
  unfold Form.recommendedFor, TIERS, tierInput. simpl.
  rewrite app_nil_r.
  match goal with |- (if ?c then _ else ?l) = _ =>
    destruct c eqn:E; [|reflexivity]
  end.
  symmetry. now apply length_of_zero_nil.
Qed.

(** X22: When the form is submitted and the URL update goes through, the page
    shows, tier by tier, exactly the models of the task that the deployment
    filter keeps, each tier ranked; no accuracy threshold is applied.  An
    error message is shown exactly when that list is empty, and loading is
    over.  With no target, as many models are shown as the task has. *)
Theorem handleFormSubmit_recommends (modelsData : Catalog)
    (detail : Form.SubmitDetail) :
  let r := Form.handleFormSubmit modelsData None detail in
  Form.recommendations r = Form.recommendedFor modelsData detail
  /\ (Form.error r = None <-> Form.recommendations r <> [])
  /\ Form.isLoading r = false
  /\ (noTarget (Form.deploymentTarget detail) = true ->
      length_of (Form.recommendations r)
      = length_of (getTaskModels modelsData (Form.category detail)
                                 (Form.subcategory detail))).
Proof.
  cbn zeta.
  pose proof (handleFormSubmit_recommendations modelsData detail) as Hrec.
  split; [exact Hrec|]. split; [|split; [reflexivity|]].
  - unfold Form.handleFormSubmit. cbn [Form.error Form.recommendations].
    match goal with |- context [if ?c then Some _ else None] =>
      destruct c eqn:E
    end.
    + split; [discriminate | intros H; now contradiction H].
    + split; [intros _ | reflexivity]. intros Hnil.
      rewrite Hnil in E. discriminate E.
  - intros Hno. rewrite Hrec, getTaskModels_length.
    unfold Form.recommendedFor, TIERS, tierInput. cbn [map concat].
    rewrite app_nil_r, !length_of_app, !length_of_rank.
    rewrite !filterByDeployment_noTarget by assumption. lia.
Qed.

Lemma handleFormSubmit_recommends_witness :
  map id (Form.recommendations
            (Form.handleFormSubmit Fixture.mockModelsData None
               {| Form.category := "computer_vision";
                  Form.subcategory := "image_classification";
                  Form.deploymentTarget := None;
                  Form.description := None |}))
  = ["browser-model"; "edge-model"; "cloud-only"; "standard-browser";
     "standard-cloud"; "advanced-server"]%string
  /\ length_of
       (Form.recommendations
          (Form.handleFormSubmit Fixture.mockModelsData None
             {| Form.category := "computer_vision";
                Form.subcategory := "image_classification";
                Form.deploymentTarget := None;
                Form.description := None |})) = 6.
Proof.
  split; [reflexivity|].
  destruct (handleFormSubmit_recommends Fixture.mockModelsData
              {| Form.category := "computer_vision";
                 Form.subcategory := "image_classification";
                 Form.deploymentTarget := None;
                 Form.description := None |}) as (_ & _ & _ & Hall).
  rewrite Hall; reflexivity.
Defined.

Lemma deduplicateModels_keeps_first_witness :
  Aggregator.deduplicateModels
    [Samples.curated; Samples.other; Samples.refetched]
  = [Samples.curated; Samples.other]
  /\ List.find (fun y => String.eqb (Aggregator.huggingFaceId y)
                                    "org/model-a")
               [Samples.curated; Samples.other; Samples.refetched]
     = Some Samples.curated.
Proof.
  split; [reflexivity|].
  destruct (deduplicateModels_keeps_first
              [Samples.curated; Samples.other; Samples.refetched])
    as (_ & _ & _ & Hfirst & _).
  apply (Hfirst Samples.curated).
  change (In Samples.curated [Samples.curated; Samples.other]).
  simpl. auto.
Defined.



(** ** The page's order and the selector's ranking *)

Section SortBlocks.
Context {A B : Type} (cmp : A -> A -> Q) (cmp' : B -> B -> Q) (f : A -> B).

Lemma insert_sorted_app_last (x : A) (s1 s2 : list A) :
  (forall b, In b s2 -> notAfter cmp x b) ->
  insert_sorted cmp x (s1 ++ s2) = insert_sorted cmp x s1 ++ s2.
Proof.
  intros Hlast. induction s1 as [|y s1 IH]; simpl.
  - destruct s2 as [|y s2]; [reflexivity|]. simpl.
    assert (Qle_bool (cmp x y) 0 = true) as ->; [|reflexivity].
    apply Qle_bool_iff, Hlast. now left.
  - destruct (Qle_bool (cmp x y) 0); [reflexivity|]. now rewrite IH.
Qed.

Lemma sort_app_blocks (l1 l2 : list A) :
  (forall a b, In a l1 -> In b l2 -> notAfter cmp a b) ->
  sort cmp (l1 ++ l2) = sort cmp l1 ++ sort cmp l2.
Proof.
  intros Hcross. induction l1 as [|x l1 IH]; simpl; [reflexivity|].
  rewrite IH by (intros a b Ha Hb; apply Hcross; [now right | exact Hb]).
  apply insert_sorted_app_last. intros b Hb. apply Hcross; [now left|].
  eapply Permutation_in; [symmetry; apply sort_perm | exact Hb].
Qed.

Lemma insert_sorted_map (x : A) (s : list A) :
  (forall b, In b s -> cmp' (f x) (f b) = cmp x b) ->
  map f (insert_sorted cmp x s) = insert_sorted cmp' (f x) (map f s).
Proof.
  intros Hsame. induction s as [|y s IH]; simpl; [reflexivity|].
  rewrite (Hsame y) by now left.
  destruct (Qle_bool (cmp x y) 0); simpl; [reflexivity|].
  rewrite IH; [reflexivity|]. intros b Hb. apply Hsame. now right.
Qed.

Lemma sort_map (l : list A) :
  (forall a b, In a l -> In b l -> cmp' (f a) (f b) = cmp a b) ->
  map f (sort cmp l) = sort cmp' (map f l).
Proof.
  intros Hsame. induction l as [|x l IH]; simpl; [reflexivity|].
  rewrite insert_sorted_map.
  - rewrite IH; [reflexivity|].
    intros a b Ha Hb. apply Hsame; now right.
  - intros b Hb. apply Hsame; [now left|]. right.
    eapply Permutation_in; [symmetry; apply sort_perm | exact Hb].
Qed.
End SortBlocks.

Lemma compareModels_earlier_tier (a b : Model) (p q : nat) :
  tierPriority a = Some p -> tierPriority b = Some q -> (p < q)%nat ->
  notAfter compareModels a b.
Proof.
  intros Ha Hb Hlt. apply (compareModels_tagged a b p q); auto.
Qed.

Lemma rank_block (name : string) (index : nat) (category subcategory : string)
    (arr : list Model) :
  Forall (fun m => tierPriority m = None) arr ->
  map Ordering.withoutPriority
      (rankBySize (map (tagWithPriority name index category subcategory) arr))
  = rankBySize (map (tag name category subcategory) arr).
Proof.
  intros Hnone. unfold rankBySize.
  rewrite (sort_map compareModels compareModels Ordering.withoutPriority).
  - f_equal. rewrite map_map. apply map_ext_in. intros m Hm.
    rewrite List.Forall_forall in Hnone.
    unfold Ordering.withoutPriority, tag. simpl.
    now rewrite (Hnone m Hm).
  - intros a b [a0 [<- _]]%in_map_iff [b0 [<- _]]%in_map_iff.
    unfold compareModels, jsSub, jsOr. simpl.
    rewrite Z.sub_diag. reflexivity.
Qed.

(** X23: With no deployment target, and a catalog whose records carry no
    tierPriority of their own, the list the page shows after a submit is the
    selector's ranking of the task, model for model and in the same order:
    ranking each tier by size and joining the tiers gives the ranking by
    tier and size of the whole task. *)
Theorem recommendations_follow_ranking (modelsData : Catalog)
    (detail : Form.SubmitDetail) :
  noTarget (Form.deploymentTarget detail) = true ->
  Ordering.catalogWithoutPriority modelsData (Form.category detail)
                                  (Form.subcategory detail) ->
  Form.recommendations (Form.handleFormSubmit modelsData None detail)
  = map Ordering.withoutPriority
        (rankBySize (getTaskModels modelsData (Form.category detail)
                                   (Form.subcategory detail))).
Proof.
  intros Hno Hcat. rewrite handleFormSubmit_recommendations.
  unfold Form.recommendedFor, getTaskModels.
  destruct (taskDataOf modelsData (Form.category detail)
                       (Form.subcategory detail)) as [taskData|] eqn:Htd.
  - assert (forall name, Forall (fun m => tierPriority m = None)
                                (orElse (taskData !! name) [])) as Hnone.
    { intros name. destruct (taskData !! name) as [arr|] eqn:E; simpl.
      - exact (Hcat taskData name arr Htd E).
      - constructor. }
    unfold TIERS, tierModelsOf. cbn [map concat imap]. unfold compose.
    cbn beta. rewrite !app_nil_r.
    rewrite !filterByDeployment_noTarget by assumption.
    unfold rankBySize at 5.
    rewrite !sort_app_blocks.
    + rewrite !map_app. fold rankBySize.
      change (sort compareModels) with rankBySize.
      now rewrite !rank_block by apply Hnone.
    + intros a b [a0 [<- _]]%in_map_iff [b0 [<- _]]%in_map_iff.
      apply (compareModels_earlier_tier _ _ 2 3);
          [reflexivity | reflexivity | lia].
    + intros a b [a0 [<- _]]%in_map_iff Hb.
      apply in_app_or in Hb as [[b0 [<- _]]%in_map_iff
                               |[b0 [<- _]]%in_map_iff].
      * apply (compareModels_earlier_tier _ _ 1 2);
          [reflexivity | reflexivity | lia].
      * apply (compareModels_earlier_tier _ _ 1 3);
          [reflexivity | reflexivity | lia].
    + intros a b [a0 [<- _]]%in_map_iff Hb.
      apply in_app_or in Hb as [[b0 [<- _]]%in_map_iff|Hb];
        [apply (compareModels_earlier_tier _ _ 0 1);
         [reflexivity | reflexivity | lia]|].
      apply in_app_or in Hb as [[b0 [<- _]]%in_map_iff
                               |[b0 [<- _]]%in_map_iff].
      * apply (compareModels_earlier_tier _ _ 0 2);
          [reflexivity | reflexivity | lia].
      * apply (compareModels_earlier_tier _ _ 0 3);
          [reflexivity | reflexivity | lia].
  - rewrite !filterByDeployment_noTarget by assumption. reflexivity.
Qed.

Lemma recommendations_follow_ranking_witness :
  Form.recommendations
    (Form.handleFormSubmit Fixture.mockModelsData None
       {| Form.category := "computer_vision";
          Form.subcategory := "image_classification";
          Form.deploymentTarget := None;
          Form.description := None |})
  = map Ordering.withoutPriority
        (selectModels Fixture.mockModelsData "computer_vision"
                      "image_classification" 6).
Proof.
  rewrite recommendations_follow_ranking.
  - reflexivity.
  - reflexivity.
  - intros taskData name arr Htd Harr.
    unfold taskDataOf, Fixture.mockModelsData in Htd. simpl in Htd.
    rewrite lookup_singleton_eq in Htd.
    rewrite lookup_singleton_eq in Htd. injection Htd as <-.
    apply lookup_insert_Some in Harr as [[_ <-]|[_ Harr]];
      [repeat constructor|].
    apply lookup_insert_Some in Harr as [[_ <-]|[_ Harr]];
      [repeat constructor|].
    apply lookup_singleton_Some in Harr as [_ <-].
    repeat constructor.
Defined.
